(** * OFENet: a shallow embedding of [stable_baselines3/common/ofenet.py]

    The development follows the Python module top to bottom:

    - Python values: exceptions, results of calls that may raise;
    - the numeric backend: scalars, tensors (shape and row-major data), the
      [torch] operations the module calls;
    - [calculate_layer_units], the layer-width planner;
    - the external collaborators as an interface ([Backend]): the growth
      block [DensenetBlock], the initialiser of [nn.LazyLinear] and the
      optimiser [th.optim.Adam];
    - [DictExtractor] and [OFENet] with its methods, as computations that
      thread the network and the autograd runtime and may raise;
    - a reference backend and sample batches to run the methods on;
    - properties of the planner, of feature widths, of the train and test
      steps and of the mode switches, for every backend, and their
      instances on the reference backend.

    Scalars are exact rationals; a division by zero produces a non-finite
    value, as IEEE arithmetic does, and a non-finite value makes every
    result computed from it non-finite. Rounding is not modelled. *)

From stdpp Require Import gmap strings list.
From Stdlib Require Import QArith Qabs Qreduction Lqa.

Open Scope Z_scope.

(** ** Python values *)

Module Py.

(** The exceptions that the modelled code can raise. *)
Inductive exn : Set :=
  | AssertionError
  | ZeroDivisionError
  | KeyError
  | IndexError
  | RuntimeError
  | UnboundLocalError.

(** The outcome of a call: a value, or a raised exception. *)
Inductive result (A : Type) : Type :=
  | Ok (a : A)
  | Raise (e : exn).

Arguments Ok {A} a.
Arguments Raise {A} e.

Definition rbind {A B} (r : result A) (k : A -> result B) : result B :=
  match r with
  | Ok a => k a
  | Raise e => Raise e
  end.

(** [xs[:stop]] on a sequence of length [n]: the number of items kept.
    A negative [stop] counts from the end. *)
Definition slice_stop (stop : Z) (n : nat) : nat :=
  if stop <? 0 then Z.to_nat (Z.max 0 (Z.of_nat n + stop))
  else Nat.min (Z.to_nat stop) n.

End Py.

Export Py.

Notation "'let?' x ':=' r 'in' k" := (rbind r (fun x => k))
  (at level 10, x pattern, r at level 100, k at level 200).

(** ** Scalars *)

(** A scalar is a rational, or [None] for a non-finite value (the [inf] or
    [nan] a division by zero produces). Finite results are kept in lowest
    terms, so that equal scalars are equal terms. The code computes in
    single precision: rounding, underflow and overflow are not modelled,
    so the scalars agree with it where its arithmetic is exact, as on
    zeros, small integers and their halves. *)
Definition num : Type := option Q.

Definition fin (q : Q) : num := Some (Qred q).

Definition nlift2 (f : Q -> Q -> Q) (a b : num) : num :=
  match a, b with
  | Some x, Some y => fin (f x y)
  | _, _ => None
  end.

Definition nadd : num -> num -> num := nlift2 Qplus.
Definition nsub : num -> num -> num := nlift2 Qminus.
Definition nmul : num -> num -> num := nlift2 Qmult.

Definition ndiv (a b : num) : num :=
  match a, b with
  | Some x, Some y => if Qeq_bool y 0 then None else fin (x / y)
  | _, _ => None
  end.

Definition nabs (a : num) : num :=
  match a with
  | Some x => fin (Qabs x)
  | None => None
  end.

(** [x ** 2] *)
Definition nsquare (a : num) : num := nmul a a.

Definition nsum (l : list num) : num := foldr nadd (fin 0) l.

Definition nof_nat (n : nat) : num := fin (inject_Z (Z.of_nat n)).

(** The mean of no element is [nan]. *)
Definition nmean (l : list num) : num := ndiv (nsum l) (nof_nat (length l)).

(** ** Tensors *)

(** A tensor is its shape and its elements in row-major order. *)
Record tensor : Type := Tensor { shape : list nat; data : list num }.

Definition numel (s : list nat) : nat := foldr Nat.mul 1%nat s.

Definition well_formed (x : tensor) : Prop := length (data x) = numel (shape x).

(** The first [k] consecutive pieces of [n] elements of [l]. *)
Fixpoint chunks {A} (k n : nat) (l : list A) : list (list A) :=
  match k with
  | O => []
  | S k' => take n l :: chunks k' n (drop n l)
  end.

Module th.

(** [nn.Flatten()]: flattens every dimension but the first; a tensor with
    fewer than two dimensions has no dimension 1 to start from. *)
Definition Flatten (x : tensor) : result tensor :=
  match shape x with
  | b :: d :: ds => Ok (Tensor [b; numel (d :: ds)] (data x))
  | _ => Raise IndexError
  end.

(** Whether [y] can be concatenated to [x] along dimension 1. *)
Definition cat_compatible (x y : tensor) : bool :=
  match shape x, shape y with
  | b :: _ :: ds, b' :: _ :: ds' => bool_decide (b = b' /\ ds = ds')
  | _, _ => false
  end.

(** Elements [i] of dimension 0, for a tensor of at least one dimension. *)
Definition row (x : tensor) (i : nat) : list num :=
  let w := numel (tail (shape x)) in take w (drop (i * w) (data x)).

(** [th.cat(xs, dim=1)]. The tensors need the same number of dimensions, at
    least two, and the same sizes outside dimension 1. Two edges of
    [torch] are left out: it skips an empty tensor of one dimension, and
    the exception for an empty list depends on its version. *)
Definition cat (xs : list tensor) : result tensor :=
  match xs with
  | [] => Raise RuntimeError
  | x :: rest =>
      if negb (forallb (fun y => length (shape y) =? length (shape x))%nat rest)
      then Raise RuntimeError
      else match shape x with
           | b :: _ :: ds =>
               if forallb (cat_compatible x) rest
               then Ok (Tensor
                          (b :: sum_list (map (fun y => nth 1 (shape y) O) xs) :: ds)
                          (concat (map (fun i => concat (map (fun y => row y i) xs))
                                       (seq 0 b))))
               else Raise RuntimeError
           | _ => Raise IndexError
           end
  end.

(** [x[:, :stop]] *)
Definition slice_cols (x : tensor) (stop : Z) : result tensor :=
  match shape x with
  | b :: c :: ds =>
      let c' := slice_stop stop c in
      Ok (Tensor (b :: c' :: ds)
                 (concat (map (fun i => take (c' * numel ds) (row x i)) (seq 0 b))))
  | _ => Raise IndexError
  end.

(** Broadcasting of two shapes, read from their last dimension. *)
Fixpoint broadcast_rev (s t : list nat) : option (list nat) :=
  match s, t with
  | [], _ => Some t
  | _, [] => Some s
  | a :: s', b :: t' =>
      match broadcast_rev s' t' with
      | Some r =>
          if (a =? b)%nat then Some (a :: r)
          else if (a =? 1)%nat then Some (b :: r)
          else if (b =? 1)%nat then Some (a :: r)
          else None
      | None => None
      end
  end.

Definition broadcast_shapes (s t : list nat) : option (list nat) :=
  option_map (@rev nat) (broadcast_rev (rev s) (rev t)).

(** The elements of a tensor of shape [s] seen at shape [r], where [s] has
    as many dimensions as [r] and each is the one of [r] or 1. *)
Fixpoint expand (s r : list nat) (d : list num) : list num :=
  match s, r with
  | a :: s', n :: r' =>
      if (a =? n)%nat
      then concat (map (expand s' r') (chunks a (numel s') d))
      else concat (replicate n (expand s' r' d))
  | _, _ => d
  end.

Definition expand_to (r : list nat) (x : tensor) : list num :=
  expand (replicate (length r - length (shape x)) 1%nat ++ shape x) r (data x).

(** An element-wise operation on two tensors, with broadcasting. *)
Definition binop (f : num -> num -> num) (x y : tensor) : result tensor :=
  match broadcast_shapes (shape x) (shape y) with
  | Some r => Ok (Tensor r (zip_with f (expand_to r x) (expand_to r y)))
  | None => Raise RuntimeError
  end.

Definition sub : tensor -> tensor -> result tensor := binop nsub.
Definition div : tensor -> tensor -> result tensor := binop ndiv.

Definition pointwise (f : num -> num) (x : tensor) : tensor :=
  Tensor (shape x) (map f (data x)).

Definition abs : tensor -> tensor := pointwise nabs.
(** [x ** 2] *)
Definition square : tensor -> tensor := pointwise nsquare.
(** [x + c] for a Python float [c] *)
Definition add_scalar (x : tensor) (c : Q) : tensor :=
  pointwise (fun a => nadd a (fin c)) x.

(** [th.mean(x)]: the mean of all elements. *)
Definition mean (x : tensor) : num := nmean (data x).

(** A materialised linear layer: [weight] has [out_features] rows of
    [in_features] entries. *)
Record Linear : Type := MkLinear {
  in_features : nat;
  out_features : nat;
  weight : list (list num);
  bias : list num
}.

Definition dot (u v : list num) : num := nsum (zip_with nmul u v).

(** [F.linear(x, weight, bias)]: applied to the last dimension of [x]. *)
Definition linear (l : Linear) (x : tensor) : result tensor :=
  match rev (shape x) with
  | c :: lead =>
      if (c =? in_features l)%nat
      then Ok (Tensor (rev lead ++ [out_features l])
                 (concat (map (fun r => zip_with (fun w b => nadd (dot r w) b)
                                                 (weight l) (bias l))
                              (chunks (numel lead) c (data x)))))
      else Raise RuntimeError
  | [] => Raise RuntimeError
  end.

End th.

(** ** The layer-width planner *)

(** [calculate_layer_units]: [%] raises on a zero divisor, the assertion
    on a remainder; [[per_unit] * num_layers] is empty for a negative
    count. *)
Definition calculate_layer_units (state_dim action_dim total_units num_layers : Z)
  : result (list Z * list Z) :=
  if decide (num_layers = 0) then Raise ZeroDivisionError
  else if decide (total_units `mod` num_layers = 0) then
    let per_unit := total_units `div` num_layers in
    let state_layer_units := replicate (Z.to_nat num_layers) per_unit in
    let action_layer_units := replicate (Z.to_nat num_layers) per_unit in
    Ok (state_layer_units, action_layer_units)
  else Raise AssertionError.

Definition sumZ (l : list Z) : Z := foldr Z.add 0 l.

(** ** External collaborators *)

(** The trainable state: the growth blocks of the two branches and the
    output projection, [None] until [nn.LazyLinear] has seen an input. *)
Record Params (Block : Type) : Type := MkParams {
  state_blocks : list Block;
  action_blocks : list Block;
  out_layer : option th.Linear
}.

Arguments MkParams {Block}.
Arguments state_blocks {Block}.
Arguments action_blocks {Block}.
Arguments out_layer {Block}.

(** What the module takes from elsewhere: [DensenetBlock] (built from its
    [units_per_layer], applied in training or inference mode), the initial
    weight and bias [nn.LazyLinear] draws for given input and output
    widths, and [th.optim.Adam], which reads gradients of the loss; the
    loss is handed over as a function of the parameters. A block is taken
    as the spec describes it: its output is a function of the block, the
    mode and the input, and applying it does not change it. *)
Class Backend : Type := {
  Block : Type;
  block_class : Z -> Block;
  units_per_layer : Block -> Z;
  block_forward : Block -> bool -> tensor -> result tensor;
  lazy_init : nat -> nat -> list (list num) * list num;
  OptState : Type;
  Adam : Params Block -> OptState;
  adam_step : OptState -> Params Block -> (Params Block -> result num)
              -> OptState * Params Block
}.

(** ** The network *)

(** Attributes fixed by [__init__]. [flatten_dict] holds the keys of the
    [DictExtractor], in the order of the observation space. *)
Record Hyper : Type := MkHyper {
  dim_state : Z;
  dim_action : Z;
  dim_output : Z;
  total_units : Z;
  num_layers : Z;
  aux_task : string;
  _skip_action_branch : bool;
  flatten_dict : list string;
  _dim_state_features : Z;
  _dim_state_action_features : Z;
  eps : Q
}.

(** The retained metrics; [mspe_test] does not exist before the first
    [test_ofe]. *)
Record Metrics : Type := MkMetrics {
  mae_train : num;
  mae_percent_train : num;
  mape_train : num;
  mse_train : num;
  mse_percent_train : num;
  mae_test : num;
  mae_percent_test : num;
  mape_test : num;
  mse_test : num;
  mse_percent_test : num;
  mspe_test : option num
}.

Section Network.

Context {B : Backend}.

(** An [OFENet] instance. [state_model] and [action_model] are the
    [nn.Sequential] of the blocks in [params]; each carries the mode flag
    its [eval()] and [train()] set. *)
Record OFENet : Type := MkOFENet {
  hyper : Hyper;
  params : Params Block;
  optimizer : OptState;
  state_model_training : bool;
  action_model_training : bool;
  metrics : Metrics
}.

(** The network together with the autograd runtime: whether operations are
    recorded, and how many graph nodes have been recorded so far. *)
Record World : Type := MkWorld {
  self : OFENet;
  grad_enabled : bool;
  autograd_nodes : nat
}.

Definition set_hyper (h : Hyper) (n : OFENet) : OFENet :=
  MkOFENet h (params n) (optimizer n) (state_model_training n)
           (action_model_training n) (metrics n).

Definition set_params (p : Params Block) (n : OFENet) : OFENet :=
  MkOFENet (hyper n) p (optimizer n) (state_model_training n)
           (action_model_training n) (metrics n).

Definition set_optimizer (o : OptState) (n : OFENet) : OFENet :=
  MkOFENet (hyper n) (params n) o (state_model_training n)
           (action_model_training n) (metrics n).

Definition set_state_model_training (b : bool) (n : OFENet) : OFENet :=
  MkOFENet (hyper n) (params n) (optimizer n) b (action_model_training n) (metrics n).

Definition set_action_model_training (b : bool) (n : OFENet) : OFENet :=
  MkOFENet (hyper n) (params n) (optimizer n) (state_model_training n) b (metrics n).

Definition set_metrics (m : Metrics) (n : OFENet) : OFENet :=
  MkOFENet (hyper n) (params n) (optimizer n) (state_model_training n)
           (action_model_training n) m.

Definition set_out_layer (l : option th.Linear) (n : OFENet) : OFENet :=
  set_params (MkParams (state_blocks (params n)) (action_blocks (params n)) l) n.

Definition set_mse_train (v : num) (m : Metrics) : Metrics :=
  MkMetrics (mae_train m) (mae_percent_train m) (mape_train m) v
            (mse_percent_train m) (mae_test m) (mae_percent_test m) (mape_test m)
            (mse_test m) (mse_percent_test m) (mspe_test m).

Definition set_test_metrics (mae mae_percent mape mse mse_percent mspe : num)
  (m : Metrics) : Metrics :=
  MkMetrics (mae_train m) (mae_percent_train m) (mape_train m) (mse_train m)
            (mse_percent_train m) mae mae_percent mape mse mse_percent (Some mspe).

Definition set_skip_action_branch (b : bool) (h : Hyper) : Hyper :=
  MkHyper (dim_state h) (dim_action h) (dim_output h) (total_units h) (num_layers h)
          (aux_task h) b (flatten_dict h) (_dim_state_features h)
          (_dim_state_action_features h) (eps h).

Definition set_self (n : OFENet) (w : World) : World :=
  MkWorld n (grad_enabled w) (autograd_nodes w).

Definition set_grad_enabled (g : bool) (w : World) : World :=
  MkWorld (self w) g (autograd_nodes w).

(** *** Computations on the network *)

(** A method body: it reads and updates the world and returns or raises;
    what it changed before raising stays changed. *)
Definition M (A : Type) : Type := World -> result A * World.

Definition ret {A} (a : A) : M A := fun w => (Ok a, w).

Definition bind {A C} (m : M A) (k : A -> M C) : M C :=
  fun w => match m w with
           | (Ok a, w') => k a w'
           | (Raise e, w') => (Raise e, w')
           end.

Definition raise {A} (e : exn) : M A := fun w => (Raise e, w).

Definition lift {A} (r : result A) : M A := fun w => (r, w).

Definition gets {A} (f : OFENet -> A) : M A := fun w => (Ok (f (self w)), w).

Definition modify (f : OFENet -> OFENet) : M unit :=
  fun w => (Ok tt, set_self (f (self w)) w).

End Network.

Notation "'let!' x ':=' m 'in' k" := (bind m (fun x => k))
  (at level 10, x pattern, m at level 100, k at level 200).
Notation "m ';;' k" := (bind m (fun _ => k))
  (at level 100, k at level 200, right associativity).

(** ** [DictExtractor] *)

(** [DictExtractor.__init__]: one [nn.Flatten] per key of the observation
    space; assigning a key a second time keeps its place. The keys are
    taken to be names [nn.ModuleDict] accepts: it raises [KeyError] for a
    key that is empty, contains a dot or names one of its own attributes,
    a check that is not modelled. *)
Definition DictExtractor (observation_space : list (string * list nat)) : list string :=
  foldl (fun acc kv => if bool_decide (fst kv ∈ acc) then acc else acc ++ [fst kv])
        [] observation_space.

(** The loop of [DictExtractor.forward]. *)
Fixpoint encoded_tensor_list (dict_extractors : list string)
  (observations : gmap string tensor) : result (list tensor) :=
  match dict_extractors with
  | [] => Ok []
  | key :: keys =>
      match observations !! key with
      | None => Raise KeyError
      | Some t =>
          let? e := th.Flatten t in
          let? es := encoded_tensor_list keys observations in
          Ok (e :: es)
      end
  end.

Definition DictExtractor_forward (dict_extractors : list string)
  (observations : gmap string tensor) : result tensor :=
  let? l := encoded_tensor_list dict_extractors observations in
  th.cat l.

(** ** [OFENet] *)

Section Methods.

Context {B : Backend}.

(** [OFENet.__init__]. The seed and the device do not show in the modelled
    state. A fresh module is in training mode. *)
Definition OFENet_init (dim_state dim_action dim_output total_units num_layers : Z)
  (aux_task : string) (observation_space : list (string * list nat))
  (skip_action_branch : bool) : result OFENet :=
  let? units := calculate_layer_units dim_state dim_action total_units num_layers in
  let state_layer_units := fst units in
  let action_layer_units := snd units in
  let p := MkParams (map block_class state_layer_units)
                    (map block_class action_layer_units) None in
  Ok (MkOFENet
        (MkHyper dim_state dim_action dim_output total_units num_layers aux_task
                 skip_action_branch (DictExtractor observation_space)
                 (total_units + dim_state)
                 (total_units + dim_state + dim_action + total_units)
                 (1 # 10000000000))
        p (Adam p) true true
        (MkMetrics (fin 0) (fin 0) (fin 0) (fin 0) (fin 0)
                   (fin 0) (fin 0) (fin 0) (fin 0) (fin 0) None)).

(** The world a freshly built network lives in: autograd records. *)
Definition fresh (n : OFENet) : World := MkWorld n true O.

Definition dim_state_features (n : OFENet) : Z := _dim_state_features (hyper n).

Definition dim_state_action_features (n : OFENet) : Z :=
  _dim_state_action_features (hyper n).

(** An operation on parameters adds a node to the graph when autograd
    records. *)
Definition record_op : M unit :=
  fun w => (Ok tt, if grad_enabled w
                   then MkWorld (self w) (grad_enabled w) (S (autograd_nodes w))
                   else w).

(** [with th.no_grad(): body]; the previous setting comes back on every
    exit. *)
Definition no_grad {A} (body : M A) : M A :=
  fun w => let (r, w') := body (set_grad_enabled false w) in
           (r, set_grad_enabled (grad_enabled w) w').

(** [nn.Sequential.forward] over growth blocks in the given mode. *)
Fixpoint Sequential (training : bool) (blocks : list Block) (x : tensor) : M tensor :=
  match blocks with
  | [] => ret x
  | b :: bs =>
      let! y := lift (block_forward b training x) in
      record_op ;;
      Sequential training bs y
  end.

Definition state_model (x : tensor) : M tensor :=
  let! training := gets state_model_training in
  let! blocks := gets (fun n => state_blocks (params n)) in
  Sequential training blocks x.

Definition action_model (x : tensor) : M tensor :=
  let! training := gets action_model_training in
  let! blocks := gets (fun n => action_blocks (params n)) in
  Sequential training blocks x.

Definition flatten_dict_forward (observations : gmap string tensor) : M tensor :=
  let! keys := gets (fun n => flatten_dict (hyper n)) in
  lift (DictExtractor_forward keys observations).

(** [nn.LazyLinear(dim_output)]: the first input fixes [in_features] and
    materialises the weight and bias. *)
Definition out_layer_forward (x : tensor) : M tensor :=
  let! l := gets (fun n => out_layer (params n)) in
  let! lin :=
    match l with
    | Some lin => ret lin
    | None =>
        match rev (shape x) with
        | [] => raise IndexError
        | c :: _ =>
            let! out := gets (fun n => dim_output (hyper n)) in
            if out <? 0 then raise RuntimeError
            else
              let wb := lazy_init c (Z.to_nat out) in
              let lin := th.MkLinear c (Z.to_nat out) (fst wb) (snd wb) in
              modify (set_out_layer (Some lin)) ;;
              ret lin
        end
    end in
  let! y := lift (th.linear lin x) in
  record_op ;;
  ret y.

(** [OFENet.forward], also what [self(...)] runs. *)
Definition forward (inputs : gmap string tensor * tensor) : M tensor :=
  let (states, actions) := inputs in
  let feature_dict := states in
  let! x := flatten_dict_forward feature_dict in
  let! features := state_model x in
  let! skip := gets (fun n => _skip_action_branch (hyper n)) in
  let! features :=
    (if negb skip
     then let! features := lift (th.cat [features; actions]) in
          action_model features
     else ret features) in
  let! values := out_layer_forward features in
  ret values.

Definition features_from_states (states : gmap string tensor) : M tensor :=
  let! features := flatten_dict_forward states in
  modify (set_state_model_training false) ;;
  let! features := state_model features in
  modify (set_state_model_training true) ;;
  ret features.

Definition features_from_states_actions (states : gmap string tensor)
  (actions : tensor) : M tensor :=
  modify (set_action_model_training false) ;;
  let! state_features := features_from_states states in
  let! features := lift (th.cat [state_features; actions]) in
  let! features := action_model features in
  modify (set_action_model_training true) ;;
  ret features.

(** [th.mean((target - predicted) ** 2)] *)
Definition mse_loss (target predicted : tensor) : result num :=
  let? d := th.sub target predicted in
  Ok (th.mean (th.square d)).

(** The [if]/[elif] chain of [train_ofe]: the value bound to
    [feature_loss], [None] when no branch is taken and it stays unbound. *)
Definition train_loss (states : gmap string tensor) (actions : tensor)
  (next_states : gmap string tensor) (rewards : tensor) : M (option num) :=
  let! target_dim := gets (fun n => dim_output (hyper n)) in
  let! task := gets (fun n => aux_task (hyper n)) in
  if String.eqb task "fsp" then
    let! predicted_states := forward (states, actions) in
    let! flat := flatten_dict_forward next_states in
    let! target_states := lift (th.slice_cols flat target_dim) in
    let! feature_loss := lift (mse_loss target_states predicted_states) in
    ret (Some feature_loss)
  else if String.eqb task "fsdp" then
    let! predicted_states_diff := forward (states, actions) in
    let! flat := flatten_dict_forward next_states in
    let! target_states := lift (th.slice_cols flat target_dim) in
    let! flat0 := flatten_dict_forward states in
    let! cur := lift (th.slice_cols flat0 target_dim) in
    let! target_states_diff := lift (th.sub target_states cur) in
    let! feature_loss := lift (mse_loss target_states_diff predicted_states_diff) in
    ret (Some feature_loss)
  else if String.eqb task "rwp" then
    let target_rewards := rewards in
    let! predicted_rewards := forward (states, actions) in
    let! feature_loss := lift (mse_loss target_rewards predicted_rewards) in
    ret (Some feature_loss)
  else ret None.

(** The loss of [train_ofe] as a function of the parameters, in the world
    the call started in: what [backward] differentiates. *)
Definition loss_at (w0 : World) (states : gmap string tensor) (actions : tensor)
  (next_states : gmap string tensor) (rewards : tensor) (p : Params Block)
  : result num :=
  match fst (train_loss states actions next_states rewards
                        (set_self (set_params p (self w0)) w0)) with
  | Ok (Some l) => Ok l
  | Ok None => Raise UnboundLocalError
  | Raise e => Raise e
  end.

(** [feature_loss.backward()] needs a loss that was recorded. *)
Definition backward : M unit :=
  fun w => if grad_enabled w then (Ok tt, w) else (Raise RuntimeError, w).

(** [self.optimizer.step()] *)
Definition optimizer_step (loss : Params Block -> result num) : M unit :=
  modify (fun n => let (o, p) := adam_step (optimizer n) (params n) loss in
                   set_optimizer o (set_params p n)).

Definition train_ofe (states : gmap string tensor) (actions : tensor)
  (next_states : gmap string tensor) (rewards dones : tensor) : M unit :=
  fun w0 =>
    (let! feature_loss := train_loss states actions next_states rewards in
     match feature_loss with
     | None => raise UnboundLocalError
     | Some feature_loss =>
         modify (fun n => set_metrics (set_mse_train feature_loss (metrics n)) n) ;;
         (* [zero_grad] clears gradients, which the world does not hold *)
         backward ;;
         optimizer_step (loss_at w0 states actions next_states rewards)
     end) w0.

(** The six statistics every branch of [test_ofe] computes from its target
    and its prediction, in the order [mae], [mae_percent], [mape], [mse],
    [mse_percent], [mspe]. *)
Definition error_metrics (eps : Q) (target predicted : tensor)
  : result (num * num * num * num * num * num) :=
  let? feature_loss := mse_loss target predicted in
  let? d := th.sub target predicted in
  let mae := th.mean (th.abs d) in
  let mae_percent := nabs (ndiv mae (th.mean target)) in
  let? q := th.div d (th.add_scalar target eps) in
  let mape := th.mean (th.abs q) in
  let mse := feature_loss in
  let mse_percent := ndiv mse (th.mean (th.square target)) in
  let mspe := th.mean (th.square q) in
  Ok (mae, mae_percent, mape, mse, mse_percent, mspe).

(** The [if]/[elif] chain of [test_ofe]: the six locals, [None] when no
    branch is taken. *)
Definition test_metrics (states : gmap string tensor) (actions : tensor)
  (next_states : gmap string tensor) (rewards : tensor)
  : M (option (num * num * num * num * num * num)) :=
  let! target_dim := gets (fun n => dim_output (hyper n)) in
  let! task := gets (fun n => aux_task (hyper n)) in
  let! eps := gets (fun n => eps (hyper n)) in
  if String.eqb task "fsp" then
    let! predicted_states := forward (states, actions) in
    let! flat := flatten_dict_forward next_states in
    let! target_states := lift (th.slice_cols flat target_dim) in
    let! ms := lift (error_metrics eps target_states predicted_states) in
    ret (Some ms)
  else if String.eqb task "fsdp" then
    let! predicted_states_diff := forward (states, actions) in
    let! flat := flatten_dict_forward next_states in
    let! target_states := lift (th.slice_cols flat target_dim) in
    let! flat0 := flatten_dict_forward states in
    let! cur := lift (th.slice_cols flat0 target_dim) in
    let! target_states_diff := lift (th.sub target_states cur) in
    let! ms := lift (error_metrics eps target_states_diff predicted_states_diff) in
    ret (Some ms)
  else if String.eqb task "rwp" then
    let target_rewards := rewards in
    let! predicted_rewards := forward (states, actions) in
    let! ms := lift (error_metrics eps target_rewards predicted_rewards) in
    ret (Some ms)
  else ret None.

Definition test_ofe (states : gmap string tensor) (actions : tensor)
  (next_states : gmap string tensor) (rewards dones : tensor) : M (list num) :=
  modify (set_state_model_training false) ;;
  modify (set_action_model_training false) ;;
  let! locals := no_grad (test_metrics states actions next_states rewards) in
  match locals with
  | None => raise UnboundLocalError
  | Some (mae, mae_percent, mape, mse, mse_percent, mspe) =>
      modify (fun n => set_metrics
                         (set_test_metrics mae mae_percent mape mse mse_percent mspe
                                           (metrics n)) n) ;;
      modify (set_state_model_training true) ;;
      modify (set_action_model_training true) ;;
      ret [mae; mae_percent; mape; mse; mse_percent; mspe]
  end.

End Methods.

(** ** A reference backend *)

Module Reference.

(** Modelled from the spec: the growth block. [DensenetBlock] comes from
    [stable_baselines3/common/blocks.py], which is not part of the sources
    at hand. The spec asks of a block that it widens its input by
    [units_per_layer], concatenating transformed features to the original
    input, and that any normalisation by batch statistics is disabled in
    inference mode. This block appends [units] copies of the centred row
    sum, scaled by a gain: centred on the batch mean in training mode, on
    the stored running mean in inference mode. *)
Record DenseBlock : Type := MkDense { units : Z; gain : Q; running_mean : Q }.

(** Modelled from the spec: the forward pass of that block, on a batch of
    rows; the original input comes first, the new features after it. *)
Definition dense_forward (b : DenseBlock) (training : bool) (x : tensor)
  : result tensor :=
  match shape x with
  | [r; c] =>
      let rows := chunks r c (data x) in
      let sums := map nsum rows in
      let centre := if training then nmean sums else fin (running_mean b) in
      Ok (Tensor [r; (c + Z.to_nat (units b))%nat]
            (concat (zip_with
                       (fun row s => row ++ replicate (Z.to_nat (units b))
                                                      (nmul (fin (gain b)) (nsub s centre)))
                       rows sums)))
  | _ => Raise RuntimeError
  end.

(** Modelled from the spec: the first materialisation of the lazily shaped
    projection. The real layer draws random weights; this one starts as the
    projection on the first [out] features. *)
Definition eye_init (inp out : nat) : list (list num) * list num :=
  (map (fun i => map (fun j => if (i =? j)%nat then fin 1 else fin 0) (seq 0 inp))
       (seq 0 out),
   replicate out (fin 0)).

(** The parameters with entry [j] of the projection bias moved by [h]. *)
Definition shift_bias (h : num) (j : nat) (p : Params DenseBlock) : Params DenseBlock :=
  match out_layer p with
  | Some l =>
      MkParams (state_blocks p) (action_blocks p)
        (Some (th.MkLinear (th.in_features l) (th.out_features l) (th.weight l)
                 (alter (fun b => nadd b h) j (th.bias l))))
  | None => p
  end.

(** Modelled from the spec: the optimiser, which the numeric backend
    provides. This one counts its steps and moves the projection bias one
    step down a finite-difference gradient of the loss. *)
Definition descent_step (o : nat) (p : Params DenseBlock)
  (loss : Params DenseBlock -> result num) : nat * Params DenseBlock :=
  (S o,
   match out_layer p, loss p with
   | Some l, Ok l0 =>
       let h := fin (1 # 100) in
       let g j := match loss (shift_bias h j p) with
                  | Ok lj => ndiv (nsub lj l0) h
                  | Raise _ => None
                  end in
       MkParams (state_blocks p) (action_blocks p)
         (Some (th.MkLinear (th.in_features l) (th.out_features l) (th.weight l)
                  (imap (fun j b => match nsub b (nmul (fin (1 # 10)) (g j)) with
                                    | Some v => Some v
                                    | None => b
                                    end) (th.bias l))))
   | _, _ => p
   end).

(** Modelled from the spec: the collaborators together. *)
#[export] Instance backend : Backend := {|
  Block := DenseBlock;
  block_class := fun u => MkDense u 1 0;
  units_per_layer := units;
  block_forward := dense_forward;
  lazy_init := eye_init;
  OptState := nat;
  Adam := fun _ => O;
  adam_step := descent_step
|}.

End Reference.

(** ** Sample data *)

Module Sample.

Import Reference.

(** A batch of two observations with one field [obs] of width 1. *)
Definition column (a b : Q) : tensor := Tensor [2; 1]%nat [fin a; fin b].

Definition obs (x : tensor) : gmap string tensor := {[ "obs"%string := x ]}.

Definition space1 : list (string * list nat) := [("obs"%string, [1%nat])].

Definition net_of (r : result OFENet) : OFENet :=
  match r with
  | Ok n => n
  | Raise _ => MkOFENet (MkHyper 0 0 0 0 0 "" false [] 0 0 0) (MkParams [] [] None) O
                 true true
                 (MkMetrics None None None None None None None None None None None)
  end.

(** One layer of one unit per branch, reward prediction, with the action
    branch. *)
Definition rwp_net : OFENet := net_of (OFENet_init 1 1 1 1 1 "rwp" space1 false).

(** Future-state prediction with two outputs over a field of width 2. *)
Definition space2 : list (string * list nat) := [("obs"%string, [2%nat])].
Definition fsp_net : OFENet := net_of (OFENet_init 2 1 2 2 2 "fsp" space2 false).

Definition batch2 (a b c d : Q) : tensor := Tensor [2; 2]%nat [fin a; fin b; fin c; fin d].

(** The reward network with a projection that reads the feature the state
    block appends. *)
Definition second_feature : th.Linear :=
  th.MkLinear 4 1 [[fin 0; fin 1; fin 0; fin 0]] [fin 0].

Definition probe_net : OFENet := set_out_layer (Some second_feature) rwp_net.

(** The reward network without its action branch. *)
Definition skip_net : OFENet := net_of (OFENet_init 1 1 1 1 1 "rwp" space1 true).

(** A schema of two fields, of one and of two columns, and a batch of two
    observations for it. *)
Definition space12 : list (string * list nat) := [("a"%string, [1%nat]); ("b"%string, [2%nat])].

Definition obs12 : gmap string tensor :=
  <[ "a"%string := column 1 2 ]> {[ "b"%string := batch2 3 4 5 6 ]}.

(** A field of two rows of one by two elements. *)
Definition cube : tensor := Tensor [2; 1; 2]%nat [fin 1; fin 2; fin 3; fin 4].

(** Future-state prediction with three outputs over a field of width 2. *)
Definition wide_net : OFENet := net_of (OFENet_init 2 1 3 2 2 "fsp" space2 false).

(** A network whose selector is none of the three tasks. *)
Definition odd_net : OFENet := net_of (OFENet_init 1 1 1 1 1 "reward" space1 false).

(** The future-state network with a projection of zeros: it predicts zero
    whatever it is given. *)
Definition zero_projection : th.Linear :=
  th.MkLinear 7 2 (replicate 2 (replicate 7 (fin 0))) (replicate 2 (fin 0)).

Definition blind_net : OFENet := set_out_layer (Some zero_projection) fsp_net.

End Sample.

(** ** Notions the properties are stated with *)

(** Modelled from the spec: the width contract of a growth block.
    [DensenetBlock] comes from [stable_baselines3/common/blocks.py], which
    is not part of the sources at hand; the spec requires that a block
    given an input of width [W] produces an output of width
    [W + units_per_layer]. Here, in inference mode: a block built for [u]
    units has [u] units, and on a batch of width [c] with a non-negative
    number of units it yields a batch of the same size and of width [c]
    plus its units. *)
Class GrowthContract (B : Backend) : Prop := {
  block_class_units : forall u, units_per_layer (block_class u) = u;
  block_grows : forall b x r c,
    shape x = [r; c] -> 0 <= units_per_layer b ->
    exists y, block_forward b false x = Ok y /\
              shape y = [r; (c + Z.to_nat (units_per_layer b))%nat]
}.

Section Notions.

Context {B : Backend}.

(** An observation batch of [b] items conforms to the schema when it has,
    for every field, a tensor of the declared shape after the batch
    dimension. A field has at least one dimension. *)
Definition conforms (observation_space : list (string * list nat))
  (observations : gmap string tensor) (b : nat) : Prop :=
  Forall (fun kv => snd kv <> [] /\
                    exists t, observations !! fst kv = Some t /\ shape t = b :: snd kv)
         observation_space.

(** The width of the flattened observation. *)
Definition flat_width (observation_space : list (string * list nat)) : nat :=
  sum_list (map (fun kv => numel (snd kv)) observation_space).

(** [n] has the attributes and the block widths of [n0]; training changes
    neither. *)
Definition same_architecture (n0 n : OFENet) : Prop :=
  hyper n = hyper n0 /\
  map units_per_layer (state_blocks (params n))
  = map units_per_layer (state_blocks (params n0)) /\
  map units_per_layer (action_blocks (params n))
  = map units_per_layer (action_blocks (params n0)).

(** Both branches switched to inference mode. *)
Definition eval_mode (w : World) : World :=
  set_self (set_action_model_training false
              (set_state_model_training false (self w))) w.

(** The world [test_ofe] runs its forward pass in. *)
Definition test_world (w : World) : World := set_grad_enabled false (eval_mode w).

(** The prediction [test_ofe] computes: the value of its call of
    [forward]. *)
Definition test_prediction (w : World) (states : gmap string tensor)
  (actions : tensor) : result tensor :=
  fst (forward (states, actions) (test_world w)).

(** The target of future-state prediction: the flattened next observation
    cut to [dim_output] columns. *)
Definition fsp_target (w : World) (next_states : gmap string tensor) : result tensor :=
  let? flat := DictExtractor_forward (flatten_dict (hyper (self w))) next_states in
  th.slice_cols flat (dim_output (hyper (self w))).


(** [w'] is [w] up to what a forward pass may do: materialise the
    projection, and add graph nodes when autograd records. *)
Definition steady (w w' : World) : Prop :=
  hyper (self w') = hyper (self w) /\
  state_blocks (params (self w')) = state_blocks (params (self w)) /\
  action_blocks (params (self w')) = action_blocks (params (self w)) /\
  optimizer (self w') = optimizer (self w) /\
  state_model_training (self w') = state_model_training (self w) /\
  action_model_training (self w') = action_model_training (self w) /\
  metrics (self w') = metrics (self w) /\
  grad_enabled w' = grad_enabled w /\
  (forall l, out_layer (params (self w)) = Some l ->
             out_layer (params (self w')) = Some l) /\
  (grad_enabled w = false -> autograd_nodes w' = autograd_nodes w).

(** *** What the methods compute, as functions of the network *)

(** The blocks of a branch, applied in turn. *)
Fixpoint apply_blocks (training : bool) (blocks : list Block) (x : tensor)
  : result tensor :=
  match blocks with
  | [] => Ok x
  | b :: bs => let? y := block_forward b training x in apply_blocks training bs y
  end.

(** The projection a forward pass applies to [x]: the materialised one, or
    the one the first input creates. *)
Definition projection (n : OFENet) (x : tensor) : result th.Linear :=
  match out_layer (params n) with
  | Some lin => Ok lin
  | None =>
      match rev (shape x) with
      | [] => Raise IndexError
      | c :: _ =>
          if dim_output (hyper n) <? 0 then Raise RuntimeError
          else let wb := lazy_init c (Z.to_nat (dim_output (hyper n))) in
               Ok (th.MkLinear c (Z.to_nat (dim_output (hyper n))) (fst wb) (snd wb))
      end
  end.

(** The value of [forward]. *)
Definition predict (n : OFENet) (inputs : gmap string tensor * tensor)
  : result tensor :=
  let? x := DictExtractor_forward (flatten_dict (hyper n)) (fst inputs) in
  let? features := apply_blocks (state_model_training n) (state_blocks (params n)) x in
  let? features :=
    (if negb (_skip_action_branch (hyper n))
     then let? c := th.cat [features; snd inputs] in
          apply_blocks (action_model_training n) (action_blocks (params n)) c
     else Ok features) in
  let? lin := projection n features in
  th.linear lin features.

(** The value of [features_from_states]. *)
Definition state_features (n : OFENet) (states : gmap string tensor) : result tensor :=
  let? x := DictExtractor_forward (flatten_dict (hyper n)) states in
  apply_blocks false (state_blocks (params n)) x.

(** The value of [features_from_states_actions]. *)
Definition state_action_features (n : OFENet) (states : gmap string tensor)
  (actions : tensor) : result tensor :=
  let? sf := state_features n states in
  let? c := th.cat [sf; actions] in
  apply_blocks false (action_blocks (params n)) c.

(** The target and the prediction of the selected task, [None] for a
    selector that is none of the three. *)
Definition task_pair (n : OFENet) (states : gmap string tensor) (actions : tensor)
  (next_states : gmap string tensor) (rewards : tensor)
  : result (option (tensor * tensor)) :=
  let keys := flatten_dict (hyper n) in
  let target_dim := dim_output (hyper n) in
  if String.eqb (aux_task (hyper n)) "fsp" then
    let? predicted := predict n (states, actions) in
    let? flat := DictExtractor_forward keys next_states in
    let? target := th.slice_cols flat target_dim in
    Ok (Some (target, predicted))
  else if String.eqb (aux_task (hyper n)) "fsdp" then
    let? predicted := predict n (states, actions) in
    let? flat := DictExtractor_forward keys next_states in
    let? target := th.slice_cols flat target_dim in
    let? flat0 := DictExtractor_forward keys states in
    let? cur := th.slice_cols flat0 target_dim in
    let? diff := th.sub target cur in
    Ok (Some (diff, predicted))
  else if String.eqb (aux_task (hyper n)) "rwp" then
    let? predicted := predict n (states, actions) in
    Ok (Some (rewards, predicted))
  else Ok None.

(** A computation that does to the world no more than a forward pass. *)
Definition keeps {A} (m : M A) : Prop := forall w, steady w (snd (m w)).

(** The six metrics of the test snapshot. *)
Definition test_snapshot (n : OFENet) : list (option num) :=
  [Some (mae_test (metrics n)); Some (mae_percent_test (metrics n));
   Some (mape_test (metrics n)); Some (mse_test (metrics n));
   Some (mse_percent_test (metrics n)); mspe_test (metrics n)].

End Notions.

(** * Properties *)

(** ** The layer-width planner *)

Lemma sumZ_replicate (n : nat) (x : Z) : sumZ (replicate n x) = Z.of_nat n * x.
Proof.
  induction n as [|n IH]; [reflexivity|].
  cbn [replicate sumZ foldr]. fold (sumZ (replicate n x)). rewrite IH. lia.
Qed.

Lemma Forall_replicate_eq {A} (n : nat) (x : A) : Forall (eq x) (replicate n x).
Proof. induction n; constructor; auto. Qed.

(** C1. For a valid configuration (a positive number of layers that divides
    the budget), the planner returns two sequences of [num_layers] entries,
    all equal to [total_units / num_layers], so each sums to [total_units];
    for 12 units in 3 layers it returns [([4,4,4],[4,4,4])]. *)
Theorem calculate_layer_units_even :
  (forall state_dim action_dim total_units num_layers,
      0 < num_layers ->
      total_units `mod` num_layers = 0 ->
      exists s a,
        calculate_layer_units state_dim action_dim total_units num_layers = Ok (s, a) /\
        Z.of_nat (length s) = num_layers /\ Z.of_nat (length a) = num_layers /\
        Forall (eq (total_units `div` num_layers)) s /\
        Forall (eq (total_units `div` num_layers)) a /\
        sumZ s = total_units /\ sumZ a = total_units) /\
  (forall state_dim action_dim,
      calculate_layer_units state_dim action_dim 12 3 = Ok ([4; 4; 4], [4; 4; 4])).
Proof.
  split; [|reflexivity].
  intros sd ad tu nl Hpos Hmod.
  exists (replicate (Z.to_nat nl) (tu `div` nl)), (replicate (Z.to_nat nl) (tu `div` nl)).
  assert (Hsum : sumZ (replicate (Z.to_nat nl) (tu `div` nl)) = tu).
  { rewrite sumZ_replicate, Z2Nat.id by lia.
    rewrite (Z.div_mod tu nl) at 2 by lia. lia. }
  unfold calculate_layer_units.
  destruct (decide (nl = 0)) as [->|_]; [lia|].
  destruct (decide (tu `mod` nl = 0)) as [_|Hn]; [|contradiction].
  rewrite length_replicate, Z2Nat.id by lia.
  repeat split; auto using Forall_replicate_eq.
Qed.

Lemma calculate_layer_units_even_witness :
  exists s a, calculate_layer_units 7 2 12 3 = Ok (s, a) /\
              Z.of_nat (length s) = 3 /\ sumZ s = 12 /\ sumZ a = 12.
Proof.
  destruct (proj1 calculate_layer_units_even 7 2 12 3) as (s & a & H & Hs & _ & _ & _ & Hss & Hsa);
    [lia | reflexivity |].
  exists s, a. auto.
Defined.

(** The same call with a negative layer count returns two empty plans. *)
Lemma calculate_layer_units_negative state_dim action_dim total_units num_layers :
  num_layers < 0 ->
  total_units `mod` num_layers = 0 ->
  calculate_layer_units state_dim action_dim total_units num_layers = Ok ([], []).
Proof.
  intros Hneg Hmod. unfold calculate_layer_units.
  destruct (decide (num_layers = 0)); [lia|].
  destruct (decide (total_units `mod` num_layers = 0)); [|contradiction].
  replace (Z.to_nat num_layers) with O by lia. reflexivity.
Qed.

(** ** Construction *)

Section Construction.

Context {B : Backend}.

(** C6. When [num_layers] does not divide [total_units] evenly, the planner
    raises instead of returning a plan, and so does the constructor, which
    calls it: the assertion fails for a non-zero remainder, the remainder
    itself for zero layers. This is so for 10 units in 3 layers. *)
Theorem indivisible_budget_fails :
  (forall dim_state dim_action dim_output total_units num_layers aux_task
          observation_space skip,
      ~ (num_layers <> 0 /\ total_units `mod` num_layers = 0) ->
      exists e,
        calculate_layer_units dim_state dim_action total_units num_layers = Raise e /\
        OFENet_init dim_state dim_action dim_output total_units num_layers aux_task
                    observation_space skip = Raise e /\
        (num_layers <> 0 -> e = AssertionError)) /\
  (forall dim_state dim_action dim_output aux_task observation_space skip,
      calculate_layer_units dim_state dim_action 10 3 = Raise AssertionError /\
      OFENet_init dim_state dim_action dim_output 10 3 aux_task observation_space skip
      = Raise AssertionError).
Proof.
  split; [|intros; split; reflexivity].
  intros ds da dout tu nl task space skip Hn.
  unfold OFENet_init, calculate_layer_units.
  destruct (decide (nl = 0)) as [->|Hnz].
  - exists ZeroDivisionError. repeat split; auto. intros []; reflexivity.
  - destruct (decide (tu `mod` nl = 0)) as [Hm|Hm].
    + exfalso. apply Hn. auto.
    + exists AssertionError. repeat split; auto.
Qed.

(** C4, as the code behaves. The constructor does not look at [aux_task]:
    with a selector other than the three tasks it builds the network, and
    the failure comes later, when [train_ofe] or [test_ofe] reach their
    unbound local. *)
Theorem unknown_task_accepted_then_fails
  dim_state dim_action dim_output total_units num_layers aux_task observation_space skip :
  aux_task <> "fsp"%string -> aux_task <> "fsdp"%string -> aux_task <> "rwp"%string ->
  num_layers <> 0 -> total_units `mod` num_layers = 0 ->
  exists n,
    OFENet_init dim_state dim_action dim_output total_units num_layers aux_task
                observation_space skip = Ok n /\
    forall w states actions next_states rewards dones,
      hyper (self w) = hyper n ->
      fst (train_ofe states actions next_states rewards dones w)
      = Raise UnboundLocalError /\
      fst (test_ofe states actions next_states rewards dones w)
      = Raise UnboundLocalError.
Proof.
  intros H1 H2 H3 Hnz Hm.
  unfold OFENet_init, calculate_layer_units.
  destruct (decide (num_layers = 0)); [contradiction|].
  destruct (decide (total_units `mod` num_layers = 0)); [|contradiction].
  eexists. split; [reflexivity|].
  intros w s a ns r d Hh.
  apply String.eqb_neq in H1, H2, H3.
  unfold train_ofe, test_ofe, train_loss, test_metrics, no_grad, bind, gets, modify,
    raise, ret.
  cbn. rewrite Hh. cbn. rewrite H1, H2, H3. cbn. split; reflexivity.
Qed.

End Construction.

(** ** What a forward pass leaves alone *)

Section Frames.

Context {B : Backend}.

Lemma steady_refl w : steady w w.
Proof. unfold steady. repeat split; auto. Qed.

Lemma steady_trans w1 w2 w3 : steady w1 w2 -> steady w2 w3 -> steady w1 w3.
Proof.
  unfold steady.
  intros (H1 & H2 & H3 & H4 & H5 & H6 & H7 & H8 & H9 & H10)
         (K1 & K2 & K3 & K4 & K5 & K6 & K7 & K8 & K9 & K10).
  repeat split; try congruence.
  - intros l Hl. auto.
  - intros Hg. rewrite K10, H10; congruence.
Qed.

Lemma keeps_ret {A} (a : A) : keeps (ret a).
Proof. intros w. apply steady_refl. Qed.

Lemma keeps_raise {A} e : keeps (raise (A := A) e).
Proof. intros w. apply steady_refl. Qed.

Lemma keeps_lift {A} (r : result A) : keeps (lift r).
Proof. intros w. apply steady_refl. Qed.

Lemma keeps_gets {A} (f : OFENet -> A) : keeps (gets f).
Proof. intros w. apply steady_refl. Qed.

Lemma keeps_bind {A C} (m : M A) (k : A -> M C) :
  keeps m -> (forall a, keeps (k a)) -> keeps (bind m k).
Proof.
  intros Hm Hk w. unfold bind. specialize (Hm w).
  destruct (m w) as [[a|e] w1]; cbn in *; [|exact Hm].
  eapply steady_trans; [exact Hm | apply Hk].
Qed.

Lemma keeps_record_op : keeps record_op.
Proof.
  intros w. unfold record_op, steady. destruct (grad_enabled w) eqn:Hg; cbn.
  - repeat split; auto. discriminate.
  - repeat split; auto.
Qed.

Lemma keeps_Sequential training blocks : forall x, keeps (Sequential training blocks x).
Proof.
  induction blocks as [|b bs IH]; intros x; cbn [Sequential].
  - apply keeps_ret.
  - apply keeps_bind; [apply keeps_lift|]. intros y.
    apply keeps_bind; [apply keeps_record_op|]. intros _. apply IH.
Qed.

Lemma keeps_state_model x : keeps (state_model x).
Proof.
  unfold state_model. apply keeps_bind; [apply keeps_gets|]. intros t.
  apply keeps_bind; [apply keeps_gets|]. intros bs. apply keeps_Sequential.
Qed.

Lemma keeps_action_model x : keeps (action_model x).
Proof.
  unfold action_model. apply keeps_bind; [apply keeps_gets|]. intros t.
  apply keeps_bind; [apply keeps_gets|]. intros bs. apply keeps_Sequential.
Qed.

Lemma keeps_flatten_dict_forward o : keeps (flatten_dict_forward o).
Proof.
  unfold flatten_dict_forward. apply keeps_bind; [apply keeps_gets|].
  intros keys. apply keeps_lift.
Qed.

(** Materialising the projection is the one thing the forward pass does to
    the parameters, and only where there was none. *)
Lemma steady_materialise w l :
  out_layer (params (self w)) = None ->
  steady w (set_self (set_out_layer (Some l) (self w)) w).
Proof.
  intros Hn. unfold steady. cbn. repeat split; auto.
  intros l' Hl. congruence.
Qed.

Lemma keeps_out_layer_forward x : keeps (out_layer_forward x).
Proof.
  assert (Htail : forall lin, keeps (let! y := lift (th.linear lin x) in record_op ;; ret y)).
  { intros lin. apply keeps_bind; [apply keeps_lift|]. intros y.
    apply keeps_bind; [apply keeps_record_op|]. intros _. apply keeps_ret. }
  intros w. unfold out_layer_forward.
  unfold bind at 1. unfold gets at 1. cbn [fst snd self].
  destruct (out_layer (params (self w))) as [lin|] eqn:Hl.
  - unfold bind at 1. unfold ret at 1. apply Htail.
  - destruct (rev (shape x)) as [|c lead].
    + unfold bind, raise. cbn. apply steady_refl.
    + unfold bind at 1. unfold bind at 1. unfold gets at 1.
      destruct (dim_output (hyper (self w)) <? 0).
      * unfold raise. cbn. apply steady_refl.
      * unfold bind at 1. unfold modify at 1. unfold ret at 1.
        eapply steady_trans; [apply steady_materialise; exact Hl|].
        apply Htail.
Qed.

Lemma keeps_forward inputs : keeps (forward inputs).
Proof.
  destruct inputs as [states actions]. unfold forward.
  apply keeps_bind; [apply keeps_flatten_dict_forward|]. intros x.
  apply keeps_bind; [apply keeps_state_model|]. intros f.
  apply keeps_bind; [apply keeps_gets|]. intros skip.
  apply keeps_bind.
  - destruct (negb skip); [|apply keeps_ret].
    apply keeps_bind; [apply keeps_lift|]. intros c. apply keeps_action_model.
  - intros f'. apply keeps_bind; [apply keeps_out_layer_forward|]. intros v.
    apply keeps_ret.
Qed.

Ltac keeps_steps :=
  repeat first
    [ apply keeps_ret | apply keeps_lift | apply keeps_gets | apply keeps_forward
    | apply keeps_flatten_dict_forward
    | apply keeps_bind; [|intros ?] ].

Lemma keeps_train_loss s a ns r : keeps (train_loss s a ns r).
Proof.
  unfold train_loss.
  apply keeps_bind; [apply keeps_gets|]. intros target_dim.
  apply keeps_bind; [apply keeps_gets|]. intros task.
  destruct (String.eqb task "fsp"); [keeps_steps|].
  destruct (String.eqb task "fsdp"); [keeps_steps|].
  destruct (String.eqb task "rwp"); keeps_steps.
Qed.

Lemma keeps_test_metrics s a ns r : keeps (test_metrics s a ns r).
Proof.
  unfold test_metrics.
  apply keeps_bind; [apply keeps_gets|]. intros target_dim.
  apply keeps_bind; [apply keeps_gets|]. intros task.
  apply keeps_bind; [apply keeps_gets|]. intros eps.
  destruct (String.eqb task "fsp"); [keeps_steps|].
  destruct (String.eqb task "fsdp"); [keeps_steps|].
  destruct (String.eqb task "rwp"); keeps_steps.
Qed.

(** With the projection in place and autograd off, a forward pass leaves
    the world as it was. *)
Lemma steady_same w w' l :
  steady w w' -> grad_enabled w = false -> out_layer (params (self w)) = Some l ->
  w' = w.
Proof.
  intros (H1 & H2 & H3 & H4 & H5 & H6 & H7 & H8 & H9 & H10) Hg Hl.
  specialize (H9 l Hl). specialize (H10 Hg).
  destruct w as [[h [sb ab ol] o sm am me] g nd], w' as [[h' [sb' ab' ol'] o' sm' am' me'] g' nd'].
  cbn in *. congruence.
Qed.

End Frames.

(** ** [test_ofe] *)

Section TestFrame.

Context {B : Backend}.

(** [test_ofe], step by step: the branches go to inference mode, the
    metrics are computed without autograd, the previous autograd setting
    comes back; then either the locals are bound and stored and the
    branches go to training mode, or the call raises. *)
Lemma test_ofe_run w s a ns r d :
  test_ofe s a ns r d w =
  let out := test_metrics s a ns r (test_world w) in
  let w3 := set_grad_enabled (grad_enabled w) (snd out) in
  match fst out with
  | Ok (Some (mae, mae_percent, mape, mse, mse_percent, mspe)) =>
      (Ok [mae; mae_percent; mape; mse; mse_percent; mspe],
       set_self
         (set_action_model_training true
            (set_state_model_training true
               (set_metrics
                  (set_test_metrics mae mae_percent mape mse mse_percent mspe
                     (metrics (self w3))) (self w3)))) w3)
  | Ok None => (Raise UnboundLocalError, w3)
  | Raise e => (Raise e, w3)
  end.
Proof.
  destruct w as [n g nd].
  unfold test_ofe, bind, modify, no_grad, test_world, eval_mode, set_self,
    set_grad_enabled.
  cbn [fst snd self grad_enabled autograd_nodes].
  match goal with |- context [test_metrics s a ns r ?w1] =>
    destruct (test_metrics s a ns r w1) as [[[[[[[[m1 m2] m3] m4] m5] m6]|]|e] w2]
  end; reflexivity.
Qed.

End TestFrame.

(** ** The values of the methods *)

Section Values.

Context {B : Backend}.

Lemma fst_bind {A C} (m : M A) (k : A -> M C) w :
  fst (bind m k w) = match fst (m w) with
                     | Ok a => fst (k a (snd (m w)))
                     | Raise e => Raise e
                     end.
Proof. unfold bind. destruct (m w) as [[a|e] w1]; reflexivity. Qed.

(** A branch only reads the world, up to the graph nodes it records. *)
Lemma Sequential_run training blocks : forall x w,
  fst (Sequential training blocks x w) = apply_blocks training blocks x /\
  self (snd (Sequential training blocks x w)) = self w /\
  grad_enabled (snd (Sequential training blocks x w)) = grad_enabled w.
Proof.
  induction blocks as [|b bs IH]; intros x w; cbn [Sequential apply_blocks].
  - auto.
  - unfold bind, lift, record_op. cbn [fst snd].
    destruct (block_forward b training x) as [y|e]; cbn [rbind]; [|auto].
    destruct (grad_enabled w) eqn:Hg.
    + destruct (IH y (MkWorld (self w) true (S (autograd_nodes w)))) as (H1 & H2 & H3).
      rewrite H1, H2, H3. auto.
    + destruct (IH y w) as (H1 & H2 & H3). rewrite H1, H2, H3. auto.
Qed.

Lemma state_model_value x w :
  fst (state_model x w)
  = apply_blocks (state_model_training (self w)) (state_blocks (params (self w))) x.
Proof. unfold state_model, bind, gets. cbn [fst snd]. apply Sequential_run. Qed.

Lemma action_model_value x w :
  fst (action_model x w)
  = apply_blocks (action_model_training (self w)) (action_blocks (params (self w))) x.
Proof. unfold action_model, bind, gets. cbn [fst snd]. apply Sequential_run. Qed.

Lemma state_model_self x w : self (snd (state_model x w)) = self w.
Proof. unfold state_model, bind, gets. cbn [fst snd]. apply Sequential_run. Qed.

Lemma action_model_self x w : self (snd (action_model x w)) = self w.
Proof. unfold action_model, bind, gets. cbn [fst snd]. apply Sequential_run. Qed.

Lemma out_layer_forward_value x w :
  fst (out_layer_forward x w) = let? lin := projection (self w) x in th.linear lin x.
Proof.
  unfold out_layer_forward, projection, bind, gets, lift, modify, raise, ret, record_op.
  cbn [fst snd].
  destruct (out_layer (params (self w))) as [lin|]; cbn [rbind].
  - destruct (th.linear lin x); reflexivity.
  - destruct (rev (shape x)) as [|c lead]; [reflexivity|].
    destruct (dim_output (hyper (self w)) <? 0); [reflexivity|].
    cbn [rbind fst snd]. destruct (th.linear _ x); reflexivity.
Qed.

Lemma bind_gets {A C} (f : OFENet -> A) (k : A -> M C) w :
  bind (gets f) k w = k (f (self w)) w.
Proof. reflexivity. Qed.

Lemma bind_ret {A C} (a : A) (k : A -> M C) w : bind (ret a) k w = k a w.
Proof. reflexivity. Qed.

Lemma bind_modify {C} (f : OFENet -> OFENet) (k : unit -> M C) w :
  bind (modify f) k w = k tt (set_self (f (self w)) w).
Proof. reflexivity. Qed.

Lemma bind_lift {A C} (r : result A) (k : A -> M C) w :
  bind (lift r) k w = match r with
                      | Ok a => k a w
                      | Raise e => (Raise e, w)
                      end.
Proof. destruct r; reflexivity. Qed.

Lemma bind_flatten_dict_forward {C} o (k : tensor -> M C) w :
  bind (flatten_dict_forward o) k w =
  match DictExtractor_forward (flatten_dict (hyper (self w))) o with
  | Ok x => k x w
  | Raise e => (Raise e, w)
  end.
Proof.
  unfold flatten_dict_forward, bind, gets, lift. cbn [fst snd].
  destruct (DictExtractor_forward _ o); reflexivity.
Qed.

(** The value of a forward pass is a function of the network. *)
Lemma forward_value inputs w : fst (forward inputs w) = predict (self w) inputs.
Proof.
  destruct inputs as [states actions]. unfold forward, predict. cbn [fst snd].
  rewrite bind_flatten_dict_forward.
  destruct (DictExtractor_forward (flatten_dict (hyper (self w))) states) as [x|e];
    cbn [rbind]; [|reflexivity].
  rewrite fst_bind, state_model_value.
  destruct (apply_blocks _ (state_blocks _) x) as [f|e]; cbn [rbind]; [|reflexivity].
  rewrite bind_gets, state_model_self.
  rewrite fst_bind.
  destruct (negb (_skip_action_branch (hyper (self w)))).
  - rewrite !bind_lift.
    destruct (th.cat [f; actions]) as [c|e]; cbn [rbind fst snd]; [|reflexivity].
    rewrite action_model_value, state_model_self.
    destruct (apply_blocks _ (action_blocks _) c) as [f'|e]; cbn [rbind]; [|reflexivity].
    rewrite fst_bind, out_layer_forward_value, action_model_self, state_model_self.
    destruct (projection (self w) f') as [lin|e]; cbn [rbind]; [|reflexivity].
    destruct (th.linear lin f'); reflexivity.
  - unfold ret. cbn [fst snd rbind].
    rewrite fst_bind, out_layer_forward_value, state_model_self.
    destruct (projection (self w) f) as [lin|e]; cbn [rbind]; [|reflexivity].
    destruct (th.linear lin f); reflexivity.
Qed.

Lemma forward_hyper inputs w : hyper (self (snd (forward inputs w))) = hyper (self w).
Proof. apply (keeps_forward inputs w). Qed.

Ltac chain_step :=
  first
    [ rewrite bind_flatten_dict_forward
    | rewrite bind_lift
    | rewrite bind_ret ];
  rewrite ?forward_hyper;
  match goal with
  | |- context [match ?r with Ok _ => _ | Raise _ => _ end] =>
      destruct r; cbn [rbind fst snd]; [|reflexivity]
  end.

(** The value of the [if]/[elif] chain of [train_ofe]. *)
Lemma train_loss_value s a ns r w :
  fst (train_loss s a ns r w) =
  let? tp := task_pair (self w) s a ns r in
  match tp with
  | Some (target, predicted) => let? l := mse_loss target predicted in Ok (Some l)
  | None => Ok None
  end.
Proof.
  unfold train_loss, task_pair. rewrite !bind_gets.
  destruct (String.eqb (aux_task (hyper (self w))) "fsp");
    [|destruct (String.eqb (aux_task (hyper (self w))) "fsdp");
      [|destruct (String.eqb (aux_task (hyper (self w))) "rwp"); [|reflexivity]]].
  all: rewrite fst_bind, forward_value;
    destruct (predict (self w) (s, a)) as [p|e]; cbn [rbind]; [|reflexivity].
  all: repeat chain_step.
  all: reflexivity.
Qed.

(** The value of the [if]/[elif] chain of [test_ofe]. *)
Lemma test_metrics_value s a ns r w :
  fst (test_metrics s a ns r w) =
  let? tp := task_pair (self w) s a ns r in
  match tp with
  | Some (target, predicted) =>
      let? ms := error_metrics (eps (hyper (self w))) target predicted in Ok (Some ms)
  | None => Ok None
  end.
Proof.
  unfold test_metrics, task_pair. rewrite !bind_gets.
  destruct (String.eqb (aux_task (hyper (self w))) "fsp");
    [|destruct (String.eqb (aux_task (hyper (self w))) "fsdp");
      [|destruct (String.eqb (aux_task (hyper (self w))) "rwp"); [|reflexivity]]].
  all: rewrite fst_bind, forward_value;
    destruct (predict (self w) (s, a)) as [p|e]; cbn [rbind]; [|reflexivity].
  all: repeat chain_step.
  all: reflexivity.
Qed.

End Values.

(** ** What [test_ofe] leaves alone *)

Section TestOfeFrame.

Context {B : Backend}.

Lemma bind_ok {A C} (m : M A) (k : A -> M C) w v w' :
  bind m k w = (Ok v, w') ->
  exists a w1, m w = (Ok a, w1) /\ k a w1 = (Ok v, w').
Proof.
  unfold bind. destruct (m w) as [[a|e] w1]; [|discriminate]. eauto.
Qed.

Lemma linear_shape lin x v :
  th.linear lin x = Ok v ->
  exists lead, shape x = lead ++ [th.in_features lin] /\
               shape v = lead ++ [th.out_features lin].
Proof.
  unfold th.linear. destruct (rev (shape x)) as [|c lead] eqn:Hr; [discriminate|].
  destruct (c =? th.in_features lin)%nat eqn:Hc; [|discriminate].
  apply Nat.eqb_eq in Hc. subst c. intros [= <-].
  exists (rev lead). split; [|reflexivity].
  rewrite <- (rev_involutive (shape x)), Hr. reflexivity.
Qed.

Lemma out_layer_forward_ok x w v w' :
  out_layer_forward x w = (Ok v, w') ->
  exists lin, projection (self w) x = Ok lin /\
              th.linear lin x = Ok v /\
              out_layer (params (self w')) = Some lin.
Proof.
  unfold out_layer_forward, projection, bind, gets, lift, modify, raise, ret, record_op.
  cbn [fst snd].
  destruct (out_layer (params (self w))) as [lin|] eqn:Hl.
  - destruct (th.linear lin x) as [y|e] eqn:Hlin; [|discriminate].
    intros [= <- <-]. exists lin. split; [reflexivity|]. split; [exact Hlin|].
    destruct (grad_enabled w); cbn; exact Hl.
  - destruct (rev (shape x)) as [|c lead]; [discriminate|].
    destruct (dim_output (hyper (self w)) <? 0); [discriminate|].
    cbn [fst snd]. destruct (th.linear _ x) as [y|e] eqn:Hlin; [|discriminate].
    intros [= <- <-]. eexists. split; [reflexivity|]. split; [exact Hlin|].
    destruct (grad_enabled _); reflexivity.
Qed.

(** A forward pass that returns went through the projection, in a world
    that holds the network it started with. *)
Lemma forward_split inputs w v w' :
  forward inputs w = (Ok v, w') ->
  exists f w2, self w2 = self w /\ out_layer_forward f w2 = (Ok v, w').
Proof.
  destruct inputs as [states actions]. unfold forward.
  rewrite bind_flatten_dict_forward.
  destruct (DictExtractor_forward _ states) as [x|e]; [|discriminate].
  intros H. apply bind_ok in H as (f & w1 & Hsm & H).
  assert (Hs1 : self w1 = self w).
  { rewrite <- (state_model_self x w), Hsm. reflexivity. }
  rewrite bind_gets in H. apply bind_ok in H as (f' & w2 & Hbr & H).
  apply bind_ok in H as (v0 & w3 & Hout & H). injection H as <- <-.
  exists f', w2. split; [|exact Hout].
  destruct (negb _).
  - rewrite bind_lift in Hbr. destruct (th.cat [f; actions]) as [c|e]; [|discriminate].
    rewrite <- Hs1, <- (action_model_self c w1), Hbr. reflexivity.
  - injection Hbr as <- <-. exact Hs1.
Qed.

(** What a returning forward pass says about the projection and about
    the shape of its result. *)
Lemma forward_ok_projection inputs w v w' :
  forward inputs w = (Ok v, w') ->
  exists lin lead,
    out_layer (params (self w')) = Some lin /\
    shape v = lead ++ [th.out_features lin] /\
    (forall l0, out_layer (params (self w)) = Some l0 -> lin = l0) /\
    (out_layer (params (self w)) = None ->
     0 <= dim_output (hyper (self w)) /\
     th.out_features lin = Z.to_nat (dim_output (hyper (self w)))).
Proof.
  intros Hrun. apply forward_split in Hrun as (f & w2 & Hs & Hout).
  apply out_layer_forward_ok in Hout as (lin & Hp & Hlin & Hafter).
  apply linear_shape in Hlin as (lead & _ & Hv).
  exists lin, lead. repeat split; auto.
  - intros l0 Hl0. unfold projection in Hp. rewrite Hs, Hl0 in Hp. congruence.
  - unfold projection in Hp. rewrite Hs, H in Hp.
    destruct (rev (shape f)); [discriminate|].
    destruct (dim_output (hyper (self w)) <? 0) eqn:Hd; [discriminate|].
    apply Z.ltb_ge in Hd. exact Hd.
  - unfold projection in Hp. rewrite Hs, H in Hp.
    destruct (rev (shape f)); [discriminate|].
    destruct (dim_output (hyper (self w)) <? 0); [discriminate|].
    injection Hp as <-. reflexivity.
Qed.

(** A test that binds its locals has been through a forward pass, which
    leaves the projection materialised. *)
Lemma test_metrics_ok_projection s a ns r w ms w2 :
  test_metrics s a ns r w = (Ok (Some ms), w2) ->
  is_Some (out_layer (params (self w2))).
Proof.
  unfold test_metrics. repeat (rewrite bind_gets; cbn beta).
  destruct (String.eqb _ "fsp").
  { intros H. apply bind_ok in H as (v & w1 & Hf & H).
    apply forward_ok_projection in Hf as (lin & lead & Hl & _).
    rewrite bind_flatten_dict_forward in H.
    destruct (DictExtractor_forward _ ns); [|discriminate].
    rewrite bind_lift in H. destruct (th.slice_cols _ _); [|discriminate].
    rewrite bind_lift in H. destruct (error_metrics _ _ _); [|discriminate].
    injection H as _ <-. eauto. }
  destruct (String.eqb _ "fsdp").
  { intros H. apply bind_ok in H as (v & w1 & Hf & H).
    apply forward_ok_projection in Hf as (lin & lead & Hl & _).
    rewrite bind_flatten_dict_forward in H.
    destruct (DictExtractor_forward _ ns); [|discriminate].
    rewrite bind_lift in H. destruct (th.slice_cols _ _); [|discriminate].
    rewrite bind_flatten_dict_forward in H.
    destruct (DictExtractor_forward _ s); [|discriminate].
    rewrite bind_lift in H. destruct (th.slice_cols _ _); [|discriminate].
    rewrite bind_lift in H. destruct (th.sub _ _); [|discriminate].
    rewrite bind_lift in H. destruct (error_metrics _ _ _); [|discriminate].
    injection H as _ <-. eauto. }
  destruct (String.eqb _ "rwp"); [|discriminate].
  intros H. apply bind_ok in H as (v & w1 & Hf & H).
  apply forward_ok_projection in Hf as (lin & lead & Hl & _).
  rewrite bind_lift in H. destruct (error_metrics _ _ _); [|discriminate].
  injection H as _ <-. eauto.
Qed.

(** C3, as the code behaves. A call to [test_ofe], for any task and any
    batch, on every exit: the growth blocks, an output projection that was
    materialised before the call and the optimiser state are as before;
    no node is added to the autograd graph and the autograd setting is as
    before; the attributes and the training metrics are as before. On
    normal return the test snapshot holds the six returned metrics, the
    projection is materialised, created by the call if it was not there,
    and both branches are in training mode, whatever mode they were in.
    For a network that was in training mode with its projection
    materialised, nothing but the snapshot has changed. *)
Theorem test_ofe_frame w states actions next_states rewards dones :
  let out := test_ofe states actions next_states rewards dones w in
  let w' := snd out in
  state_blocks (params (self w')) = state_blocks (params (self w)) /\
  action_blocks (params (self w')) = action_blocks (params (self w)) /\
  (forall l, out_layer (params (self w)) = Some l ->
             out_layer (params (self w')) = Some l) /\
  optimizer (self w') = optimizer (self w) /\
  autograd_nodes w' = autograd_nodes w /\
  grad_enabled w' = grad_enabled w /\
  hyper (self w') = hyper (self w) /\
  mae_train (metrics (self w')) = mae_train (metrics (self w)) /\
  mae_percent_train (metrics (self w')) = mae_percent_train (metrics (self w)) /\
  mape_train (metrics (self w')) = mape_train (metrics (self w)) /\
  mse_train (metrics (self w')) = mse_train (metrics (self w)) /\
  mse_percent_train (metrics (self w')) = mse_percent_train (metrics (self w)) /\
  (forall ms, fst out = Ok ms ->
     test_snapshot (self w') = map Some ms /\
     state_model_training (self w') = true /\
     action_model_training (self w') = true /\
     is_Some (out_layer (params (self w'))) /\
     (state_model_training (self w) = true ->
      action_model_training (self w) = true ->
      is_Some (out_layer (params (self w))) ->
      w' = set_self (set_metrics
                       (set_test_metrics (nth 0 ms None) (nth 1 ms None) (nth 2 ms None)
                          (nth 3 ms None) (nth 4 ms None) (nth 5 ms None)
                          (metrics (self w))) (self w)) w)).
Proof.
  cbn zeta. rewrite test_ofe_run. cbn zeta.
  pose proof (keeps_test_metrics states actions next_states rewards (test_world w))
    as Hst.
  pose proof (test_metrics_ok_projection states actions next_states rewards
                (test_world w)) as Hproj.
  destruct (test_metrics states actions next_states rewards (test_world w))
    as [res w2]. cbn [fst snd] in *.
  pose proof Hst as (H1 & H2 & H3 & H4 & H5 & H6 & H7 & H8 & H9 & H10).
  cbn in H1, H2, H3, H4, H5, H6, H7, H8, H9, H10. specialize (H10 eq_refl).
  assert (Hframe :
    state_blocks (params (self w2)) = state_blocks (params (self w)) /\
    action_blocks (params (self w2)) = action_blocks (params (self w)) /\
    (forall l, out_layer (params (self w)) = Some l ->
               out_layer (params (self w2)) = Some l) /\
    optimizer (self w2) = optimizer (self w) /\
    autograd_nodes w2 = autograd_nodes w /\
    hyper (self w2) = hyper (self w) /\
    metrics (self w2) = metrics (self w)) by (repeat split; auto).
  destruct Hframe as (F1 & F2 & F3 & F4 & F5 & F6 & F7).
  destruct res as [[[[[[[m1 m2] m3] m4] m5] m6]|]|e]; cbn [fst snd];
    cbn; rewrite ?F7;
    repeat (split; [solve [auto]|]); intros ms Hms; try discriminate.
  injection Hms as <-.
  do 3 (split; [reflexivity|]).
  split; [exact (Hproj _ _ eq_refl)|].
  intros Hsm Ham [l Hl].
  assert (w2 = test_world w) as ->.
  { eapply steady_same; [exact Hst | reflexivity | exact Hl]. }
  destruct w as [[h p o sm am me] g nd]. cbn in *. subst. reflexivity.
Qed.

End TestOfeFrame.

(** ** The feature-extraction methods *)

Section Features.

Context {B : Backend}.

Lemma features_from_states_run states w :
  features_from_states states w =
  match DictExtractor_forward (flatten_dict (hyper (self w))) states with
  | Raise e => (Raise e, w)
  | Ok x =>
      match Sequential false (state_blocks (params (self w))) x
              (set_self (set_state_model_training false (self w)) w) with
      | (Ok y, w2) => (Ok y, set_self (set_state_model_training true (self w2)) w2)
      | (Raise e, w2) => (Raise e, w2)
      end
  end.
Proof.
  unfold features_from_states, flatten_dict_forward, state_model, bind, gets, lift,
    modify, ret.
  cbn [fst snd self].
  destruct (DictExtractor_forward (flatten_dict (hyper (self w))) states) as [x|e];
    [|reflexivity].
  destruct w as [n g nd]. unfold set_self. cbn [self grad_enabled autograd_nodes].
  cbn [set_state_model_training state_model_training params].
  destruct (Sequential false (state_blocks (params n)) x _) as [[y|e] w2]; reflexivity.
Qed.

Lemma features_from_states_actions_run states actions w :
  features_from_states_actions states actions w =
  match features_from_states states
          (set_self (set_action_model_training false (self w)) w) with
  | (Raise e, w1) => (Raise e, w1)
  | (Ok state_features, w1) =>
      match th.cat [state_features; actions] with
      | Raise e => (Raise e, w1)
      | Ok c =>
          match Sequential (action_model_training (self w1))
                  (action_blocks (params (self w1))) c w1 with
          | (Ok y, w2) => (Ok y, set_self (set_action_model_training true (self w2)) w2)
          | (Raise e, w2) => (Raise e, w2)
          end
      end
  end.
Proof.
  unfold features_from_states_actions, action_model, bind, gets, lift, modify, ret.
  cbn [fst snd].
  destruct (features_from_states states _) as [[sf|e] w1]; [|reflexivity].
  destruct (th.cat [sf; actions]) as [c|e]; [|reflexivity].
  cbn [fst snd].
  destruct (Sequential _ _ c w1) as [[y|e] w2]; reflexivity.
Qed.

Lemma features_from_states_value states w :
  fst (features_from_states states w) = state_features (self w) states.
Proof.
  rewrite features_from_states_run. unfold state_features.
  destruct (DictExtractor_forward _ states) as [x|e]; cbn [rbind]; [|reflexivity].
  destruct (Sequential_run false (state_blocks (params (self w))) x
              (set_self (set_state_model_training false (self w)) w)) as (Hv & _).
  destruct (Sequential false _ x _) as [[y|e] w2]; cbn [fst] in *; congruence.
Qed.

(** On normal return the state branch is in training mode and nothing else
    of the network has changed. *)
Lemma features_from_states_self states w f w1 :
  features_from_states states w = (Ok f, w1) ->
  self w1 = set_state_model_training true (self w) /\
  grad_enabled w1 = grad_enabled w.
Proof.
  rewrite features_from_states_run.
  destruct (DictExtractor_forward _ states) as [x|e]; [|discriminate].
  destruct (Sequential_run false (state_blocks (params (self w))) x
              (set_self (set_state_model_training false (self w)) w))
    as (_ & Hs & Hg).
  destruct (Sequential false _ x _) as [[y|e] w2]; [|discriminate].
  intros [= <- <-]. cbn [snd] in *. cbn. rewrite Hs, Hg. auto.
Qed.

Lemma features_from_states_actions_value states actions w :
  fst (features_from_states_actions states actions w)
  = state_action_features (self w) states actions.
Proof.
  rewrite features_from_states_actions_run. unfold state_action_features.
  pose proof (features_from_states_value states
                (set_self (set_action_model_training false (self w)) w)) as Hv.
  destruct (features_from_states states _) as [[sf|e] w1] eqn:Hrun; cbn [fst] in Hv.
  - apply features_from_states_self in Hrun as [Hs _].
    change (state_features (self w) states) with
      (state_features (set_action_model_training false (self w)) states).
    cbn [self set_self] in Hv. rewrite <- Hv. cbn [rbind].
    destruct (th.cat [sf; actions]) as [c|e]; cbn [rbind]; [|reflexivity].
    destruct (Sequential_run (action_model_training (self w1))
                (action_blocks (params (self w1))) c w1) as (Hv2 & _).
    destruct (Sequential _ _ c w1) as [[y|e] w2]; cbn [fst] in *;
      rewrite Hs in Hv2; cbn in Hv2; congruence.
  - change (state_features (self w) states) with
      (state_features (set_action_model_training false (self w)) states).
    cbn [self set_self] in Hv. rewrite <- Hv. reflexivity.
Qed.

Lemma features_from_states_actions_self states actions w g w2 :
  features_from_states_actions states actions w = (Ok g, w2) ->
  self w2 = set_action_model_training true (set_state_model_training true (self w)) /\
  grad_enabled w2 = grad_enabled w.
Proof.
  rewrite features_from_states_actions_run.
  destruct (features_from_states states _) as [[sf|e] w1] eqn:Hrun; [|discriminate].
  apply features_from_states_self in Hrun as [Hs Hg].
  destruct (th.cat [sf; actions]) as [c|e]; [|discriminate].
  destruct (Sequential_run (action_model_training (self w1))
              (action_blocks (params (self w1))) c w1) as (_ & Hs2 & Hg2).
  destruct (Sequential _ _ c w1) as [[y|e] w3]; [|discriminate].
  intros [= <- <-]. cbn [snd] in *. cbn. rewrite Hs2, Hg2, Hs, Hg. auto.
Qed.

(** When [features_from_states] raises, either the extractor raised and
    nothing was touched, or a block raised and the state branch is left in
    inference mode. *)
Lemma features_from_states_raise states w e w1 :
  features_from_states states w = (Raise e, w1) ->
  w1 = w \/ self w1 = set_state_model_training false (self w).
Proof.
  rewrite features_from_states_run.
  destruct (DictExtractor_forward _ states) as [x|e']; [|intros [= _ <-]; auto].
  destruct (Sequential_run false (state_blocks (params (self w))) x
              (set_self (set_state_model_training false (self w)) w))
    as (_ & Hs & _).
  destruct (Sequential false _ x _) as [[y|e'] w2]; [discriminate|].
  intros [= _ <-]. right. exact Hs.
Qed.

(** C5, as the code behaves. On normal return [features_from_states] leaves
    the state branch in training mode and the action branch as it was, and
    [features_from_states_actions] leaves both branches in training mode:
    a network that was in training mode before the call is in the same
    mode after it. When [features_from_states] raises, either the
    extractor raised and nothing was touched, or the state branch is left
    in inference mode; when [features_from_states_actions] raises, the
    action branch is left in inference mode. *)
Theorem features_leave_training_mode w states actions :
  (forall f w1,
      features_from_states states w = (Ok f, w1) ->
      state_model_training (self w1) = true /\
      action_model_training (self w1) = action_model_training (self w) /\
      (state_model_training (self w) = true ->
       state_model_training (self w1) = state_model_training (self w))) /\
  (forall g w2,
      features_from_states_actions states actions w = (Ok g, w2) ->
      state_model_training (self w2) = true /\
      action_model_training (self w2) = true /\
      (state_model_training (self w) = true ->
       action_model_training (self w) = true ->
       state_model_training (self w2) = state_model_training (self w) /\
       action_model_training (self w2) = action_model_training (self w))) /\
  (forall e w1,
      features_from_states states w = (Raise e, w1) ->
      w1 = w \/ state_model_training (self w1) = false) /\
  (forall e w2,
      features_from_states_actions states actions w = (Raise e, w2) ->
      action_model_training (self w2) = false).
Proof.
  split; [|split; [|split]].
  - intros f w1 Hrun. apply features_from_states_self in Hrun as [-> _].
    cbn. repeat split; auto.
  - intros g w2 Hrun. apply features_from_states_actions_self in Hrun as [-> _].
    cbn. repeat split; auto.
  - intros e w1 Hrun. apply features_from_states_raise in Hrun as [-> | ->]; auto.
  - intros e w2. rewrite features_from_states_actions_run.
    destruct (features_from_states states _) as [[sf|e'] w1] eqn:Hrun.
    + apply features_from_states_self in Hrun as [Hs _].
      destruct (th.cat [sf; actions]) as [c|e'].
      * destruct (Sequential_run (action_model_training (self w1))
                    (action_blocks (params (self w1))) c w1) as (_ & Hs2 & _).
        destruct (Sequential _ _ c w1) as [[y|e'] w3]; [discriminate|].
        intros [= _ <-]. cbn [snd] in Hs2. rewrite Hs2, Hs. reflexivity.
      * intros [= _ <-]. rewrite Hs. reflexivity.
    + intros [= _ <-].
      apply features_from_states_raise in Hrun as [->| ->]; reflexivity.
Qed.

Lemma bind_cong {A C} (m : M A) (k k' : A -> M C) w :
  (forall a, k a (snd (m w)) = k' a (snd (m w))) -> bind m k w = bind m k' w.
Proof. intros Hk. unfold bind. destruct (m w) as [[a|e] w1]; cbn in *; auto. Qed.

(** C10. With [skip_action_branch] set, the forward pass that [train_ofe]
    and [test_ofe] run applies the state branch and the output projection
    only, and neither its value nor its effect depends on the actions;
    [features_from_states_actions] does not read the flag: whatever its
    value, it runs the action branch on the state features joined with the
    actions. *)
Theorem skip_flag_read_by_forward_only w states actions :
  (_skip_action_branch (hyper (self w)) = true ->
   fst (forward (states, actions) w)
   = (let? x := DictExtractor_forward (flatten_dict (hyper (self w))) states in
      let? features := apply_blocks (state_model_training (self w))
                         (state_blocks (params (self w))) x in
      let? lin := projection (self w) features in
      th.linear lin features) /\
   forall actions', forward (states, actions') w = forward (states, actions) w) /\
  (forall skip,
     fst (features_from_states_actions states actions
            (set_self (set_hyper (set_skip_action_branch skip (hyper (self w)))
                                 (self w)) w))
     = (let? sf := state_features (self w) states in
        let? c := th.cat [sf; actions] in
        apply_blocks false (action_blocks (params (self w))) c)).
Proof.
  split.
  - intros Hskip. split.
    + rewrite forward_value. unfold predict. rewrite Hskip. reflexivity.
    + intros actions'. unfold forward.
      rewrite !bind_flatten_dict_forward.
      destruct (DictExtractor_forward _ states) as [x|e]; [|reflexivity].
      apply bind_cong. intros f.
      rewrite !bind_gets, state_model_self, Hskip. reflexivity.
  - intros skip. rewrite features_from_states_actions_value. reflexivity.
Qed.

End Features.

(** ** Feature widths *)

Lemma DictExtractor_keys_from acc (observation_space : list (string * list nat)) :
  NoDup (acc ++ map fst observation_space) ->
  foldl (fun acc kv => if bool_decide (fst kv ∈ acc) then acc else acc ++ [fst kv])
        acc observation_space
  = acc ++ map fst observation_space.
Proof.
  revert acc. induction observation_space as [|[k shp] l IH]; intros acc Hnd; cbn.
  - rewrite app_nil_r. reflexivity.
  - rewrite bool_decide_eq_false_2.
    + rewrite IH; rewrite <- app_assoc; [reflexivity | exact Hnd].
    + intros Hin. apply NoDup_app in Hnd as (_ & Hd & _).
      apply (Hd k Hin). cbn. left.
Qed.

(** For a schema with distinct field names, the extractor keeps the names
    in order. *)
Lemma DictExtractor_keys observation_space :
  NoDup (map fst observation_space) ->
  DictExtractor observation_space = map fst observation_space.
Proof. intros Hnd. unfold DictExtractor. apply DictExtractor_keys_from. exact Hnd. Qed.

Lemma encoded_tensor_list_conforms observation_space observations b :
  conforms observation_space observations b ->
  exists l, encoded_tensor_list (map fst observation_space) observations = Ok l /\
            Forall2 (fun kv t => shape t = [b; numel (snd kv)]) observation_space l.
Proof.
  induction 1 as [|[k shp] l' (Hne & t & Ht & Hshape) _ IH]; cbn.
  - exists []. auto.
  - cbn in *. rewrite Ht. destruct IH as (l & -> & Hl).
    unfold th.Flatten. rewrite Hshape.
    destruct shp as [|d ds]; [contradiction|]. cbn [rbind].
    eexists. split; [reflexivity|]. constructor; auto.
Qed.

Lemma cat_shape (xs : list tensor) (b : nat) :
  xs <> [] ->
  Forall (fun t => exists c, shape t = [b; c]) xs ->
  exists y, th.cat xs = Ok y /\
            shape y = [b; sum_list (map (fun t => nth 1 (shape t) O) xs)].
Proof.
  intros Hne Hall. destruct xs as [|x rest]; [contradiction|].
  apply Forall_cons in Hall as [(c & Hx) Hrest].
  unfold th.cat.
  assert (Hlen : forallb (fun y => (length (shape y) =? length (shape x))%nat) rest = true).
  { apply forallb_forall. intros y Hy. rewrite Forall_forall in Hrest.
    destruct (Hrest y) as (cy & Hcy); [apply list_elem_of_In; exact Hy|].
    rewrite Hx, Hcy. reflexivity. }
  rewrite Hlen. cbn [negb]. rewrite Hx.
  assert (Hcomp : forallb (th.cat_compatible x) rest = true).
  { apply forallb_forall. intros y Hy. rewrite Forall_forall in Hrest.
    destruct (Hrest y) as (cy & Hcy); [apply list_elem_of_In; exact Hy|].
    unfold th.cat_compatible. rewrite Hx, Hcy. apply bool_decide_eq_true_2. auto. }
  rewrite Hcomp. eexists. split; reflexivity.
Qed.

Lemma DictExtractor_forward_shape observation_space observations b :
  observation_space <> [] ->
  conforms observation_space observations b ->
  exists x, DictExtractor_forward (map fst observation_space) observations = Ok x /\
            shape x = [b; flat_width observation_space].
Proof.
  intros Hne Hc. unfold DictExtractor_forward.
  destruct (encoded_tensor_list_conforms _ _ _ Hc) as (l & -> & Hl). cbn [rbind].
  destruct (cat_shape l b) as (y & Hy & Hshape).
  - intros ->. apply Forall2_nil_inv_r in Hl. contradiction.
  - clear Hne Hc. induction Hl as [|kv t l1 l2 Hkt _ IH]; constructor; eauto.
  - exists y. split; [exact Hy|]. rewrite Hshape. f_equal. f_equal.
    unfold flat_width. clear -Hl.
    induction Hl as [|kv t l1 l2 Hkt _ IH]; [reflexivity|].
    cbn. rewrite Hkt, IH. reflexivity.
Qed.

Section Widths.

Context {B : Backend} {G : GrowthContract B}.

(** A branch in inference mode widens its input by the units of its
    blocks. *)
Lemma apply_blocks_shape blocks : forall x r c,
  shape x = [r; c] ->
  Forall (fun b => 0 <= units_per_layer b) blocks ->
  exists y, apply_blocks false blocks x = Ok y /\
            shape y = [r; (c + Z.to_nat (sumZ (map units_per_layer blocks)))%nat].
Proof.
  induction blocks as [|b bs IH]; intros x r c Hx Hall; cbn [apply_blocks map].
  - exists x. split; [reflexivity|]. rewrite Hx. do 2 f_equal. cbn. lia.
  - apply Forall_cons in Hall as [Hb Hbs].
    destruct (block_grows b x r c Hx Hb) as (y & -> & Hy). cbn [rbind].
    destruct (IH y r _ Hy Hbs) as (z & -> & Hz).
    exists z. split; [reflexivity|]. rewrite Hz. do 2 f_equal.
    change (sumZ (units_per_layer b :: map units_per_layer bs))
      with (units_per_layer b + sumZ (map units_per_layer bs)).
    assert (0 <= sumZ (map units_per_layer bs)).
    { clear -Hbs. induction Hbs as [|b' l Hb' _ IH]; [cbn; lia|].
      change (0 <= units_per_layer b' + sumZ (map units_per_layer l)). lia. }
    lia.
Qed.

Lemma planned_blocks (n : nat) (u : Z) :
  map units_per_layer (map block_class (replicate n u)) = replicate n u.
Proof.
  induction n as [|n IH]; [reflexivity|]. cbn. rewrite block_class_units, IH. reflexivity.
Qed.

(** C2. For a network built with a valid configuration whose [dim_state]
    is the width of the flattened observation, and any network of the same
    architecture: on a batch that conforms to the schema,
    [features_from_states] returns features of width [dim_state_features],
    the flattened width plus [total_units]; with a batch of actions of
    width [dim_action], [features_from_states_actions] returns features of
    that width plus [dim_action] plus [total_units], which is
    [dim_state_action_features]. *)
Theorem feature_widths dim_state dim_action dim_output total_units num_layers aux_task
  observation_space skip n0 w states actions b a :
  OFENet_init dim_state dim_action dim_output total_units num_layers aux_task
              observation_space skip = Ok n0 ->
  0 < num_layers ->
  0 <= total_units ->
  observation_space <> [] ->
  NoDup (map fst observation_space) ->
  Z.of_nat (flat_width observation_space) = dim_state ->
  same_architecture n0 (self w) ->
  conforms observation_space states b ->
  shape actions = [b; a] ->
  Z.of_nat a = dim_action ->
  exists f w1 g w2 wf wg,
    features_from_states states w = (Ok f, w1) /\
    shape f = [b; wf] /\
    Z.of_nat wf = dim_state_features n0 /\
    Z.of_nat wf = Z.of_nat (flat_width observation_space) + total_units /\
    features_from_states_actions states actions w = (Ok g, w2) /\
    shape g = [b; wg] /\
    Z.of_nat wg = Z.of_nat wf + dim_action + total_units /\
    Z.of_nat wg = dim_state_action_features n0.
Proof.
  intros Hinit Hnl Htu Hne Hnd Hds (Hh & Hsb & Hab) Hc Ha Hda.
  unfold OFENet_init, calculate_layer_units in Hinit.
  destruct (decide (num_layers = 0)); [lia|].
  destruct (decide (total_units `mod` num_layers = 0)) as [Hm|]; [|discriminate].
  cbn in Hinit. injection Hinit as <-.
  cbn [params state_blocks action_blocks] in Hsb, Hab.
  rewrite planned_blocks in Hsb, Hab.
  set (u := total_units `div` num_layers) in *.
  assert (Hu : 0 <= u) by (apply Z.div_pos; lia).
  assert (Hsum : sumZ (replicate (Z.to_nat num_layers) u) = total_units).
  { rewrite sumZ_replicate, Z2Nat.id by lia. unfold u.
    rewrite (Z.div_mod total_units num_layers) at 2 by lia. lia. }
  assert (Hpos : forall bs, map units_per_layer bs = replicate (Z.to_nat num_layers) u ->
                            Forall (fun b => 0 <= units_per_layer b) bs).
  { intros bs Hbs. apply Forall_forall. intros x Hx.
    assert (Hin : units_per_layer x ∈ replicate (Z.to_nat num_layers) u).
    { rewrite <- Hbs. apply list_elem_of_fmap_2. exact Hx. }
    apply elem_of_replicate in Hin as [-> _]. exact Hu. }
  (* the state features *)
  destruct (DictExtractor_forward_shape observation_space states b Hne Hc)
    as (x & Hx & Hxs).
  destruct (apply_blocks_shape (state_blocks (params (self w))) x b _ Hxs (Hpos _ Hsb))
    as (f & Hf & Hfs).
  rewrite Hsb, Hsum in Hfs.
  assert (Hsf : state_features (self w) states = Ok f).
  { unfold state_features. rewrite Hh. cbn [hyper flatten_dict].
    rewrite DictExtractor_keys by exact Hnd. rewrite Hx. exact Hf. }
  (* the state-action features *)
  destruct (cat_shape [f; actions] b) as (c & Hcat & Hcs); [discriminate | |].
  { repeat constructor; eauto. }
  cbn [map sum_list] in Hcs. rewrite Hfs, Ha in Hcs. cbn [nth] in Hcs.
  destruct (apply_blocks_shape (action_blocks (params (self w))) c b _ Hcs (Hpos _ Hab))
    as (g & Hg & Hgs).
  rewrite Hab, Hsum in Hgs.
  assert (Hsaf : state_action_features (self w) states actions = Ok g).
  { unfold state_action_features. rewrite Hsf. cbn [rbind]. rewrite Hcat. exact Hg. }
  pose proof (features_from_states_value states w) as Hv1.
  pose proof (features_from_states_actions_value states actions w) as Hv2.
  destruct (features_from_states states w) as [r1 w1].
  destruct (features_from_states_actions states actions w) as [r2 w2].
  cbn [fst] in Hv1, Hv2. rewrite Hsf in Hv1. rewrite Hsaf in Hv2. subst r1 r2.
  unfold id in Hgs.
  exists f, w1, g, w2. do 2 eexists.
  split; [reflexivity|]. split; [exact Hfs|].
  split; [unfold dim_state_features; cbn; lia|].
  split; [lia|].
  split; [reflexivity|]. split; [exact Hgs|].
  split; [lia|]. unfold dim_state_action_features. cbn. lia.
Qed.

End Widths.

(** ** The training loss and the test metrics *)

Section Losses.

Context {B : Backend}.







End Losses.

(** ** Arithmetic of the metrics *)

Section Arithmetic.

Local Open Scope Q_scope.

Lemma fin_eq (p q : Q) : p == q -> fin p = fin q.
Proof. intros H. unfold fin. f_equal. apply Qred_complete. exact H. Qed.

Lemma ndiv_zero (y : Q) : ~ y == 0 -> ndiv (Some 0) (Some y) = Some 0.
Proof.
  intros Hy. unfold ndiv.
  destruct (Qeq_bool y 0) eqn:E; [apply Qeq_bool_eq in E; contradiction|].
  apply (fin_eq (0 / y) 0). unfold Qdiv. ring.
Qed.

Lemma nsum_zeros (n : nat) : nsum (replicate n (Some 0)) = Some 0.
Proof.
  induction n as [|n IH]; [reflexivity|].
  cbn [replicate]. unfold nsum in *. cbn [foldr]. rewrite IH. reflexivity.
Qed.

Lemma nof_nat_nonzero (n : nat) :
  n <> O -> exists y, nof_nat n = Some y /\ ~ y == 0.
Proof.
  intros Hn. eexists. split; [reflexivity|].
  rewrite Qred_correct. unfold Qeq. cbn. lia.
Qed.

(** The mean of zeros is zero, unless there is none. *)
Lemma nmean_zeros (n : nat) : n <> O -> nmean (replicate n (Some 0)) = Some 0.
Proof.
  intros Hn. unfold nmean. rewrite nsum_zeros, length_replicate.
  destruct (nof_nat_nonzero n Hn) as (y & -> & Hy). apply ndiv_zero. exact Hy.
Qed.

End Arithmetic.

(** ** Element-wise operations on tensors of one shape *)

Section SameShape.

Lemma chunks_concat {A} (k n : nat) : forall l : list A,
  length l = (k * n)%nat -> concat (chunks k n l) = l.
Proof.
  induction k as [|k IH]; intros l Hl; cbn [chunks concat].
  - destruct l; [reflexivity|discriminate].
  - rewrite IH; [apply take_drop|]. rewrite length_drop. lia.
Qed.

Lemma chunks_lengths {A} (k n : nat) : forall l : list A,
  length l = (k * n)%nat -> Forall (fun c => length c = n) (chunks k n l).
Proof.
  induction k as [|k IH]; intros l Hl; cbn [chunks]; constructor.
  - rewrite length_take. lia.
  - apply IH. rewrite length_drop. lia.
Qed.

(** Seen at its own shape, a tensor has its own elements. *)
Lemma expand_same (s : list nat) : forall d,
  length d = numel s -> th.expand s s d = d.
Proof.
  induction s as [|a s IH]; intros d Hd; cbn [th.expand]; [reflexivity|].
  rewrite Nat.eqb_refl. cbn [numel foldr] in Hd. fold (numel s) in Hd.
  rewrite <- (chunks_concat a (numel s) d Hd) at 2. f_equal.
  rewrite <- (map_id (chunks a (numel s) d)) at 2.
  apply map_ext_Forall.
  eapply Forall_impl; [apply chunks_lengths; exact Hd|].
  intros c Hc. apply IH. exact Hc.
Qed.

Lemma broadcast_rev_same (s : list nat) : th.broadcast_rev s s = Some s.
Proof.
  induction s as [|a s IH]; [reflexivity|].
  cbn [th.broadcast_rev]. rewrite IH, Nat.eqb_refl. reflexivity.
Qed.

Lemma binop_same_shape f (x y : tensor) :
  shape y = shape x -> well_formed x -> well_formed y ->
  th.binop f x y = Ok (Tensor (shape x) (zip_with f (data x) (data y))).
Proof.
  intros Hs Hx Hy. unfold th.binop, th.broadcast_shapes, th.expand_to.
  rewrite Hs, broadcast_rev_same. cbn [option_map]. rewrite rev_involutive.
  rewrite Nat.sub_diag. cbn [replicate app].
  rewrite !expand_same; [reflexivity | congruence | exact Hx].
Qed.

Lemma zip_with_diag {A C} (f : A -> A -> C) (l : list A) :
  zip_with f l l = map (fun x => f x x) l.
Proof. induction l as [|x l IH]; [reflexivity|]. cbn. rewrite IH. reflexivity. Qed.

End SameShape.

(** ** The metrics of an exact prediction of zeros *)

Section Exact.

Local Open Scope Q_scope.

Lemma mean_zeros_tensor (s : list nat) (n : nat) (f : num -> num) :
  f (Some 0) = Some 0 -> n <> O ->
  th.mean (th.pointwise f (Tensor s (replicate n (Some 0)))) = Some 0.
Proof.
  intros Hf Hn. unfold th.mean, th.pointwise. cbn [data].
  rewrite fmap_replicate, Hf. apply nmean_zeros. exact Hn.
Qed.

(** An exact prediction of a target of zeros: the four means are zero, and
    the two ratios to the means of the target, which carry no [eps], divide
    zero by zero. *)
Lemma error_metrics_zero_target (eps : Q) (s : list nat) :
  ~ eps == 0 -> numel s <> O ->
  error_metrics eps (Tensor s (replicate (numel s) (Some 0)))
                (Tensor s (replicate (numel s) (Some 0)))
  = Ok (Some 0, None, Some 0, Some 0, None, Some 0).
Proof.
  intros He Hn. set (n := numel s) in *.
  set (z := Tensor s (replicate n (Some 0))).
  assert (Hwf : well_formed z) by (unfold well_formed; cbn; apply length_replicate).
  assert (Hsub : th.sub z z = Ok z).
  { unfold th.sub. rewrite binop_same_shape by auto. unfold z. cbn [shape data].
    rewrite zip_with_diag, fmap_replicate. reflexivity. }
  assert (Hdiv : th.div z (th.add_scalar z eps) = Ok z).
  { unfold th.div. rewrite binop_same_shape.
    - unfold z. cbn [shape data th.add_scalar th.pointwise].
      rewrite fmap_replicate, zip_with_replicate. do 3 f_equal.
      apply ndiv_zero. rewrite !Qred_correct. intros H. apply He. lra.
    - reflexivity.
    - exact Hwf.
    - unfold well_formed, z. cbn. rewrite length_map. apply length_replicate. }
  unfold error_metrics, mse_loss. rewrite Hsub. cbn [rbind]. rewrite Hdiv. cbn [rbind].
  unfold th.abs, th.square, z. rewrite !mean_zeros_tensor by (auto; reflexivity).
  change (th.mean (Tensor s (replicate n (Some 0)))) with (nmean (replicate n (Some 0))).
  rewrite nmean_zeros by exact Hn. reflexivity.
Qed.

End Exact.

(** X16. The ratios of the mean errors to the mean target do not involve
    [eps]: it enters the element-wise quotients only. *)
Lemma mean_ratios_ignore_eps (eps eps' : Q) (target predicted : tensor)
  m1 m2 m3 m4 m5 m6 m1' m2' m3' m4' m5' m6' :
  error_metrics eps target predicted = Ok (m1, m2, m3, m4, m5, m6) ->
  error_metrics eps' target predicted = Ok (m1', m2', m3', m4', m5', m6') ->
  m1 = m1' /\ m2 = m2' /\ m4 = m4' /\ m5 = m5'.
Proof.
  unfold error_metrics.
  destruct (mse_loss target predicted) as [l|e]; cbn [rbind]; [|discriminate].
  destruct (th.sub target predicted) as [dd|e]; cbn [rbind]; [|discriminate].
  destruct (th.div dd (th.add_scalar target eps)) as [q|e]; cbn [rbind]; [|discriminate].
  destruct (th.div dd (th.add_scalar target eps')) as [q'|e]; cbn [rbind];
    [|discriminate].
  intros [= <- <- _ <- <- _] [= <- <- _ <- <- _]. auto.
Qed.

Section Scenarios.

Context {B : Backend}.

Lemma test_prediction_value w states actions :
  test_prediction w states actions = predict (self (test_world w)) (states, actions).
Proof. unfold test_prediction. apply forward_value. Qed.

(** The value of [test_ofe] from the value of its [if]/[elif] chain. *)
Lemma test_ofe_value w s a ns r d m1 m2 m3 m4 m5 m6 :
  fst (test_metrics s a ns r (test_world w)) = Ok (Some (m1, m2, m3, m4, m5, m6)) ->
  fst (test_ofe s a ns r d w) = Ok [m1; m2; m3; m4; m5; m6].
Proof.
  intros H. rewrite test_ofe_run. cbn zeta. rewrite H. reflexivity.
Qed.

(** C8, as the code behaves. For future-state prediction, on a batch whose
    truncated next-state target is all zeros and whose prediction is that
    target exactly, [test_ofe] returns zero for the MAE, the MAPE, the MSE
    and the MSPE, and a value that is not finite for the MAE-ratio and the
    MSE-ratio: their denominators, the means of the target and of its
    square, carry no epsilon and are zero. *)
Theorem zero_target_ratios_not_finite w states actions next_states rewards dones s :
  aux_task (hyper (self w)) = "fsp"%string ->
  eps (hyper (self w)) = (1 # 10000000000)%Q ->
  numel s <> O ->
  test_prediction w states actions = Ok (Tensor s (replicate (numel s) (Some 0%Q))) ->
  fsp_target w next_states = Ok (Tensor s (replicate (numel s) (Some 0%Q))) ->
  fst (test_ofe states actions next_states rewards dones w)
  = Ok [Some 0%Q; None; Some 0%Q; Some 0%Q; None; Some 0%Q].
Proof.
  intros Htask Heps Hn Hp Ht.
  apply test_ofe_value. rewrite test_metrics_value. unfold task_pair.
  change (hyper (self (test_world w))) with (hyper (self w)).
  rewrite Htask. cbn [String.eqb Ascii.eqb Bool.eqb].
  rewrite test_prediction_value in Hp. rewrite Hp. cbn [rbind].
  unfold fsp_target in Ht.
  destruct (DictExtractor_forward _ next_states) as [flat|e]; cbn [rbind] in *;
    [|discriminate].
  rewrite Ht. cbn [rbind]. rewrite Heps.
  rewrite error_metrics_zero_target; [reflexivity | | exact Hn].
  intros H. vm_compute in H. discriminate.
Qed.

(** C9. For reward prediction, on a batch where the predicted rewards are
    [1, 2] and the target rewards are [1, 3], in one common shape,
    [test_ofe] returns six metrics, of which the first, the MAE, and the
    fourth, the MSE, are 0.5. *)
Theorem reward_example_metrics w states actions next_states dones s :
  aux_task (hyper (self w)) = "rwp"%string ->
  numel s = 2%nat ->
  test_prediction w states actions = Ok (Tensor s [Some 1%Q; Some 2%Q]) ->
  exists ms,
    fst (test_ofe states actions next_states (Tensor s [Some 1%Q; Some 3%Q]) dones w)
    = Ok ms /\
    length ms = 6%nat /\
    ms !! 0%nat = Some (Some (1 # 2)%Q) /\
    ms !! 3%nat = Some (Some (1 # 2)%Q).
Proof.
  intros Htask Hs Hp.
  set (r := Tensor s [Some 1%Q; Some 3%Q]).
  set (p := Tensor s [Some 1%Q; Some 2%Q]) in *.
  set (d := Tensor s [Some 0%Q; Some 1%Q]).
  assert (Hsub : th.sub r p = Ok d).
  { unfold th.sub. rewrite binop_same_shape; [reflexivity | reflexivity | |];
      unfold well_formed; cbn [data shape r p length]; congruence. }
  assert (Hdiv : exists q, th.div d (th.add_scalar r (eps (hyper (self w)))) = Ok q).
  { unfold th.div. rewrite binop_same_shape; [eexists; reflexivity | reflexivity | |];
      unfold well_formed;
      cbn [data shape d r th.add_scalar th.pointwise length map]; congruence. }
  destruct Hdiv as (q & Hdiv).
  eexists. split; [|split; [|split]].
  - apply test_ofe_value. rewrite test_metrics_value. unfold task_pair.
    change (hyper (self (test_world w))) with (hyper (self w)).
    rewrite Htask. cbn [String.eqb Ascii.eqb Bool.eqb].
    rewrite test_prediction_value in Hp. rewrite Hp. cbn [rbind].
    unfold error_metrics, mse_loss. fold r. rewrite Hsub. cbn [rbind].
    rewrite Hdiv. cbn [rbind]. reflexivity.
  - reflexivity.
  - reflexivity.
  - reflexivity.
Qed.

End Scenarios.

(** * Further properties *)

(** ** The planner and the constructor *)

(** X1. Whenever the planner returns, the two plans are one and the same
    list of [num_layers] entries (none for a negative count), the count is
    not zero and divides the budget, and the plan is the same for any
    [state_dim] and [action_dim]. *)
Theorem calculate_layer_units_symmetric state_dim action_dim total_units num_layers s a :
  calculate_layer_units state_dim action_dim total_units num_layers = Ok (s, a) ->
  s = a /\
  length s = Z.to_nat num_layers /\
  num_layers <> 0 /\
  total_units `mod` num_layers = 0 /\
  forall state_dim' action_dim',
    calculate_layer_units state_dim' action_dim' total_units num_layers = Ok (s, a).
Proof.
  unfold calculate_layer_units.
  destruct (decide (num_layers = 0)); [discriminate|].
  destruct (decide (total_units `mod` num_layers = 0)); [|discriminate].
  intros [= <- <-]. rewrite length_replicate. auto.
Qed.

Section NoBlocks.

Context {B : Backend}.

(** X2. A negative layer count that divides the budget is accepted: the
    constructor returns a network without any block, whose width
    attributes still count [total_units]. Its state features are the
    flattened observation itself and its state-action features are the
    flattened observation joined with the actions. *)
Theorem negative_layer_count_builds_no_blocks
  dim_state dim_action dim_output total_units num_layers aux_task observation_space skip :
  num_layers < 0 ->
  total_units `mod` num_layers = 0 ->
  exists n,
    OFENet_init dim_state dim_action dim_output total_units num_layers aux_task
                observation_space skip = Ok n /\
    state_blocks (params n) = [] /\
    action_blocks (params n) = [] /\
    dim_state_features n = total_units + dim_state /\
    forall w states actions,
      self w = n ->
      fst (features_from_states states w)
      = DictExtractor_forward (DictExtractor observation_space) states /\
      fst (features_from_states_actions states actions w)
      = (let? x := DictExtractor_forward (DictExtractor observation_space) states in
         th.cat [x; actions]).
Proof.
  intros Hneg Hmod. unfold OFENet_init.
  rewrite (calculate_layer_units_negative _ _ _ _ Hneg Hmod). cbn [rbind fst snd map].
  eexists. split; [reflexivity|]. repeat (split; [reflexivity|]).
  intros w states actions Hw.
  rewrite features_from_states_value, features_from_states_actions_value.
  unfold state_action_features, state_features. rewrite Hw. cbn [hyper params flatten_dict
    state_blocks action_blocks apply_blocks].
  split.
  - destruct (DictExtractor_forward _ states); reflexivity.
  - destruct (DictExtractor_forward _ states) as [x|e]; cbn [rbind]; [|reflexivity].
    destruct (th.cat [x; actions]); reflexivity.
Qed.

End NoBlocks.

(** ** The observation flattener *)

(** X3. When [DictExtractor.forward] returns, the schema has at least one
    key, every key of the schema is a field of the observation with at
    least two dimensions, and the result has two dimensions. *)
Theorem DictExtractor_forward_needs_every_key keys (observations : gmap string tensor) x :
  DictExtractor_forward keys observations = Ok x ->
  keys <> [] /\
  Forall (fun key => exists t, observations !! key = Some t /\
                               (2 <= length (shape t))%nat) keys /\
  exists b c, shape x = [b; c].
Proof.
  unfold DictExtractor_forward.
  destruct (encoded_tensor_list keys observations) as [l|e] eqn:El; cbn [rbind];
    [|discriminate].
  intros Hcat.
  assert (Hl : Forall (fun key => exists t, observations !! key = Some t /\
                                           (2 <= length (shape t))%nat) keys /\
               Forall (fun y => exists b c, shape y = [b; c]) l /\
               (keys = [] -> l = [])).
  { clear Hcat. revert l El. induction keys as [|key keys IH]; intros l El; cbn in El.
    - injection El as <-. auto.
    - destruct (observations !! key) as [t|] eqn:Ht; [|discriminate].
      unfold th.Flatten in El.
      destruct (shape t) as [|b [|d ds]] eqn:Hs; cbn [rbind] in El; try discriminate.
      destruct (encoded_tensor_list keys observations) as [es|e]; cbn [rbind] in El;
        [|discriminate].
      injection El as <-. destruct (IH es eq_refl) as (H1 & H2 & _).
      split; [|split; [|discriminate]].
      + constructor; [|exact H1]. exists t. split; [exact Ht|]. rewrite Hs. cbn. lia.
      + constructor; [|exact H2]. cbn. eauto. }
  destruct Hl as (H1 & H2 & H3).
  destruct l as [|y rest]; [discriminate|].
  split; [intros ->; discriminate (H3 eq_refl)|]. split; [exact H1|].
  apply Forall_cons in H2 as [(b & c & Hy) _].
  unfold th.cat in Hcat.
  destruct (negb _); [discriminate|]. rewrite Hy in Hcat.
  destruct (forallb _ rest); [|discriminate].
  injection Hcat as <-. cbn [shape]. eauto.
Qed.

(** X4. The first key of the schema that the observation lacks raises
    [KeyError], when the fields before it have at least two dimensions. *)
Theorem DictExtractor_forward_missing_key before key after
  (observations : gmap string tensor) :
  Forall (fun k => exists t, observations !! k = Some t /\
                             (2 <= length (shape t))%nat) before ->
  observations !! key = None ->
  DictExtractor_forward (before ++ key :: after) observations = Raise KeyError.
Proof.
  intros Hb Hk. unfold DictExtractor_forward.
  assert (encoded_tensor_list (before ++ key :: after) observations = Raise KeyError)
    as ->; [|reflexivity].
  induction Hb as [|k ks (t & Ht & Hr) _ IH]; cbn.
  - rewrite Hk. reflexivity.
  - rewrite Ht. unfold th.Flatten.
    destruct (shape t) as [|b [|d ds]]; cbn in Hr; try lia.
    cbn [rbind]. rewrite IH. reflexivity.
Qed.

(** X5. Only the fields named in the schema are read: two observations
    that agree on them flatten alike, so a field outside the schema
    changes nothing. *)
Theorem DictExtractor_forward_reads_schema_only keys
  (observations observations' : gmap string tensor) :
  (forall key, key ∈ keys -> observations !! key = observations' !! key) ->
  DictExtractor_forward keys observations = DictExtractor_forward keys observations'.
Proof.
  intros Hagree. unfold DictExtractor_forward.
  assert (encoded_tensor_list keys observations
          = encoded_tensor_list keys observations') as ->; [|reflexivity].
  induction keys as [|key keys IH]; [reflexivity|]. cbn.
  rewrite <- (Hagree key) by left.
  destruct (observations !! key) as [t|]; [|reflexivity].
  rewrite IH; [reflexivity|]. intros k Hk. apply Hagree. right. exact Hk.
Qed.

Lemma rows_concat {A} (c : nat) : forall (b : nat) (d : list A),
  length d = (b * c)%nat ->
  concat (map (fun i => take c (drop (i * c) d)) (seq 0 b)) = d.
Proof.
  induction b as [|b IH]; intros d Hd.
  - destruct d; [reflexivity|discriminate].
  - cbn [seq map concat]. rewrite <- seq_shift, map_map. cbn [Nat.mul drop].
    transitivity (take c d ++ drop c d); [|apply take_drop]. f_equal.
    rewrite <- (IH (drop c d)) by (rewrite length_drop; lia).
    f_equal. apply map_ext. intros i. rewrite drop_drop. reflexivity.
Qed.

Lemma length_concat_const {A} (S : nat) (ls : list (list A)) :
  Forall (fun l => length l = S) ls -> length (concat ls) = (length ls * S)%nat.
Proof.
  induction 1 as [|l ls Hl _ IH]; [reflexivity|].
  cbn. rewrite length_app, Hl, IH. reflexivity.
Qed.

Lemma length_row (x : tensor) (b c i : nat) :
  shape x = [b; c] -> well_formed x -> (i < b)%nat -> length (th.row x i) = c.
Proof.
  unfold well_formed, th.row. intros Hs Hwf Hi. rewrite Hs in *. cbn in *.
  rewrite length_take, length_drop. nia.
Qed.

(** Joining well-formed batches of one size gives a well-formed batch. *)
Lemma cat_well_formed (xs : list tensor) (b : nat) :
  xs <> [] ->
  Forall (fun t => (exists c, shape t = [b; c]) /\ well_formed t) xs ->
  exists y, th.cat xs = Ok y /\
            shape y = [b; sum_list (map (fun t => nth 1 (shape t) O) xs)] /\
            well_formed y.
Proof.
  intros Hne Hall.
  destruct (cat_shape xs b Hne) as (y & Hy & Hs).
  { eapply Forall_impl; [exact Hall|]. intros t [H _]. exact H. }
  exists y. split; [exact Hy|]. split; [exact Hs|].
  unfold well_formed. rewrite Hs.
  assert (Hrows : forall i, (i < b)%nat ->
            length (concat (map (fun t => th.row t i) xs))
            = sum_list (map (fun t => nth 1 (shape t) O) xs)).
  { intros i Hi. clear Hne Hy Hs.
    induction Hall as [|t ts [(c & Hc) Hwf] _ IH]; [reflexivity|].
    cbn [map concat sum_list sum_list_with]. rewrite length_app, IH.
    rewrite (length_row t b c i Hc Hwf) by lia. rewrite Hc. reflexivity. }
  unfold th.cat in Hy. destruct xs as [|x rest]; [contradiction|].
  destruct (negb _); [discriminate|].
  destruct (shape x) as [|b0 [|c0 ds]] eqn:Hx; try discriminate.
  destruct (forallb _ rest); [|discriminate].
  injection Hy as <-. cbn [data].
  assert (b0 = b) as ->.
  { apply Forall_cons in Hall as [[(c & Hc) _] _]. congruence. }
  rewrite (length_concat_const (sum_list (map (fun t => nth 1 (shape t) O) (x :: rest)))).
  - rewrite length_map, length_seq. cbn [numel foldr]. lia.
  - apply Forall_map. apply Forall_forall. intros i Hi.
    apply elem_of_seq in Hi. cbn beta. apply Hrows. lia.
Qed.

(** X6. An observation that conforms to the schema, with well-formed
    fields, flattens to a well-formed batch of the same size whose width is
    the sum of the field sizes. *)
Theorem DictExtractor_forward_well_formed observation_space
  (observations : gmap string tensor) b :
  observation_space <> [] ->
  Forall (fun kv => snd kv <> [] /\
                    exists t, observations !! fst kv = Some t /\
                              shape t = b :: snd kv /\ well_formed t)
         observation_space ->
  exists x, DictExtractor_forward (map fst observation_space) observations = Ok x /\
            shape x = [b; flat_width observation_space] /\
            well_formed x.
Proof.
  intros Hne Hc. unfold DictExtractor_forward.
  assert (Hl : exists l,
             encoded_tensor_list (map fst observation_space) observations = Ok l /\
             Forall2 (fun kv t => shape t = [b; numel (snd kv)] /\ well_formed t)
                     observation_space l).
  { clear Hne. induction Hc as [|[k shp] l' (Hshp & t & Ht & Hs & Hwf) _ IH]; cbn.
    - exists []. auto.
    - cbn in *. rewrite Ht. destruct IH as (l & -> & Hl).
      unfold th.Flatten. rewrite Hs.
      destruct shp as [|d ds]; [contradiction|]. cbn [rbind].
      eexists. split; [reflexivity|]. constructor; [|exact Hl].
      split; [reflexivity|]. unfold well_formed in *. rewrite Hs in Hwf.
      cbn [data shape numel foldr] in *. lia. }
  destruct Hl as (l & -> & Hl). cbn [rbind].
  destruct (cat_well_formed l b) as (y & Hy & Hs & Hwf).
  - intros ->. apply Forall2_nil_inv_r in Hl. contradiction.
  - clear Hne Hc. induction Hl as [|kv t l1 l2 [Hkt Hw] _ IH]; constructor; eauto.
  - exists y. split; [exact Hy|]. split; [|exact Hwf]. rewrite Hs. do 2 f_equal.
    unfold flat_width. clear -Hl.
    induction Hl as [|kv t l1 l2 [Hkt _] _ IH]; [reflexivity|].
    cbn. rewrite Hkt, IH. reflexivity.
Qed.

(** X7. With a single field, the flattened observation holds the elements
    of the field in their order: flattening only merges the dimensions
    after the first. *)
Theorem DictExtractor_forward_single_field key (observations : gmap string tensor)
  t b d ds :
  observations !! key = Some t ->
  shape t = b :: d :: ds ->
  well_formed t ->
  DictExtractor_forward [key] observations = Ok (Tensor [b; numel (d :: ds)] (data t)).
Proof.
  intros Ht Hs Hwf. unfold DictExtractor_forward. cbn [encoded_tensor_list].
  rewrite Ht. unfold th.Flatten. rewrite Hs. cbn [rbind].
  unfold th.cat. cbn [forallb negb shape map sum_list sum_list_with nth].
  f_equal. f_equal; [rewrite Nat.add_0_r; reflexivity|].
  unfold th.row. cbn [shape tail data concat map].
  replace (numel [numel (d :: ds)]) with (numel (d :: ds)) by (cbn; lia).
  transitivity (concat (map (fun i => take (numel (d :: ds))
                                            (drop (i * numel (d :: ds)) (data t)))
                            (seq 0 b))).
  - f_equal. apply map_ext. intros i. apply app_nil_r.
  - apply rows_concat. unfold well_formed in Hwf. rewrite Hs in Hwf. exact Hwf.
Qed.

(** ** The feature-extraction methods, further *)

Section FeaturesFurther.

Context {B : Backend}.

(** X8. [features_from_states] computes in inference mode whatever mode
    the network is in: its value is a function of the schema keys and the
    state blocks alone, so the branch modes, the autograd setting, the
    action branch, the projection and the metrics do not matter, and a
    second call on the same input returns the same features. *)
Theorem features_from_states_repeatable w states :
  (forall w',
      flatten_dict (hyper (self w')) = flatten_dict (hyper (self w)) ->
      state_blocks (params (self w')) = state_blocks (params (self w)) ->
      fst (features_from_states states w') = fst (features_from_states states w)) /\
  (forall f w1,
      features_from_states states w = (Ok f, w1) ->
      fst (features_from_states states w1) = Ok f).
Proof.
  split.
  - intros w' Hk Hb. rewrite !features_from_states_value. unfold state_features.
    rewrite Hk, Hb. reflexivity.
  - intros f w1 Hrun.
    pose proof (features_from_states_value states w) as Hv. rewrite Hrun in Hv.
    apply features_from_states_self in Hrun as [Hs _].
    rewrite features_from_states_value, Hs. symmetry. exact Hv.
Qed.

(** X9. On every exit, normal or not, the two feature methods leave the
    attributes, the parameters, the optimiser state, the metrics and the
    autograd setting as they were; [features_from_states] also leaves the
    mode of the action branch. They change mode flags and nothing else of
    the network. *)
Theorem features_touch_modes_only w states actions :
  let w1 := snd (features_from_states states w) in
  let w2 := snd (features_from_states_actions states actions w) in
  (hyper (self w1) = hyper (self w) /\
   params (self w1) = params (self w) /\
   optimizer (self w1) = optimizer (self w) /\
   metrics (self w1) = metrics (self w) /\
   grad_enabled w1 = grad_enabled w /\
   action_model_training (self w1) = action_model_training (self w)) /\
  (hyper (self w2) = hyper (self w) /\
   params (self w2) = params (self w) /\
   optimizer (self w2) = optimizer (self w) /\
   metrics (self w2) = metrics (self w) /\
   grad_enabled w2 = grad_enabled w).
Proof.
  assert (H1 : forall w0,
             let w1 := snd (features_from_states states w0) in
             hyper (self w1) = hyper (self w0) /\
             params (self w1) = params (self w0) /\
             optimizer (self w1) = optimizer (self w0) /\
             metrics (self w1) = metrics (self w0) /\
             grad_enabled w1 = grad_enabled w0 /\
             action_model_training (self w1) = action_model_training (self w0)).
  { intros w0. cbn zeta. rewrite features_from_states_run.
    destruct (DictExtractor_forward _ states) as [x|e]; [|cbn; auto 10].
    destruct (Sequential_run false (state_blocks (params (self w0))) x
                (set_self (set_state_model_training false (self w0)) w0))
      as (_ & Hs & Hg).
    destruct (Sequential false _ x _) as [[y|e] w2]; cbn [snd] in *;
      cbn; rewrite Hs, Hg; cbn; auto 10. }
  cbn zeta. split; [apply H1|].
  rewrite features_from_states_actions_run.
  specialize (H1 (set_self (set_action_model_training false (self w)) w)).
  cbn zeta in H1.
  destruct (features_from_states states _) as [[sf|e] w1]; cbn [snd] in *;
    [|cbn in H1; tauto].
  destruct H1 as (A1 & A2 & A3 & A4 & A5 & _). cbn in A1, A2, A3, A4, A5.
  destruct (th.cat [sf; actions]) as [c|e]; [|cbn; auto 10].
  destruct (Sequential_run (action_model_training (self w1))
              (action_blocks (params (self w1))) c w1) as (_ & Hs & Hg).
  destruct (Sequential _ _ c w1) as [[y|e] w3]; cbn [snd] in *;
    cbn; rewrite Hs, Hg; auto 10.
Qed.

End FeaturesFurther.

(** ** The forward pass, [train_ofe] and [test_ofe], further *)

Section StepsFurther.

Context {B : Backend}.

(** X10. A forward pass that returns leaves the projection materialised,
    and its result has as many columns as the projection has outputs. A
    projection that was already there is the one used; one that the pass
    creates has [dim_output] outputs, which is then not negative. On every
    exit, a projection that was there before is there after. *)
Theorem forward_result_width inputs w :
  (forall v w',
      forward inputs w = (Ok v, w') ->
      exists lin lead,
        out_layer (params (self w')) = Some lin /\
        shape v = lead ++ [th.out_features lin] /\
        (forall l0, out_layer (params (self w)) = Some l0 -> lin = l0) /\
        (out_layer (params (self w)) = None ->
         0 <= dim_output (hyper (self w)) /\
         th.out_features lin = Z.to_nat (dim_output (hyper (self w))))) /\
  (forall l0,
      out_layer (params (self w)) = Some l0 ->
      out_layer (params (self (snd (forward inputs w)))) = Some l0).
Proof.
  split.
  - intros v w'. apply forward_ok_projection.
  - intros l0 Hl0. apply (keeps_forward inputs w). exact Hl0.
Qed.

(** X11. When [train_ofe] returns, autograd was recording, the loss of the
    selected task is stored in [mse_train], and the optimiser has made
    exactly one step, from the parameters the forward pass left and its
    own state before the call. The attributes, the branch modes, the test
    snapshot, the other training metrics and the autograd setting are as
    before. *)
Theorem train_ofe_steps_once w states actions next_states rewards dones w' :
  train_ofe states actions next_states rewards dones w = (Ok tt, w') ->
  exists loss wf,
    train_loss states actions next_states rewards w = (Ok (Some loss), wf) /\
    grad_enabled w = true /\
    mse_train (metrics (self w')) = loss /\
    (optimizer (self w'), params (self w'))
    = adam_step (optimizer (self w)) (params (self wf))
                (loss_at w states actions next_states rewards) /\
    hyper (self w') = hyper (self w) /\
    state_model_training (self w') = state_model_training (self w) /\
    action_model_training (self w') = action_model_training (self w) /\
    test_snapshot (self w') = test_snapshot (self w) /\
    mae_train (metrics (self w')) = mae_train (metrics (self w)) /\
    mae_percent_train (metrics (self w')) = mae_percent_train (metrics (self w)) /\
    mape_train (metrics (self w')) = mape_train (metrics (self w)) /\
    mse_percent_train (metrics (self w')) = mse_percent_train (metrics (self w)) /\
    grad_enabled w' = grad_enabled w.
Proof.
  unfold train_ofe, bind.
  pose proof (keeps_train_loss states actions next_states rewards w) as Hst.
  destruct (train_loss states actions next_states rewards w) as [[[loss|]|e] wf];
    try discriminate.
  cbn [snd] in Hst. destruct Hst as (H1 & H2 & H3 & H4 & H5 & H6 & H7 & H8 & H9 & H10).
  unfold optimizer_step, modify, backward, raise.
  cbn [fst snd self set_self grad_enabled].
  destruct (grad_enabled wf) eqn:Hg; [|discriminate].
  cbn [fst snd self set_self grad_enabled set_metrics optimizer params].
  rewrite H4.
  destruct (adam_step (optimizer (self w)) (params (self wf)) _) as [o p] eqn:Hstep.
  intros [= <-]. exists loss, wf. cbn. unfold test_snapshot. cbn. rewrite H7.
  repeat split; auto; congruence.
Qed.

(** X12. When [train_ofe] raises, the optimiser has not stepped: its
    state and a projection that was there before are untouched; so are
    the attributes, the branch modes, the test snapshot and the autograd
    setting. *)
Theorem train_ofe_raise_steps_not w states actions next_states rewards dones e w' :
  train_ofe states actions next_states rewards dones w = (Raise e, w') ->
  optimizer (self w') = optimizer (self w) /\
  (forall l0, out_layer (params (self w)) = Some l0 ->
              out_layer (params (self w')) = Some l0) /\
  hyper (self w') = hyper (self w) /\
  state_model_training (self w') = state_model_training (self w) /\
  action_model_training (self w') = action_model_training (self w) /\
  test_snapshot (self w') = test_snapshot (self w) /\
  grad_enabled w' = grad_enabled w.
Proof.
  unfold train_ofe, bind.
  pose proof (keeps_train_loss states actions next_states rewards w) as Hst.
  destruct (train_loss states actions next_states rewards w) as [[[loss|]|e0] wf];
    cbn [snd] in Hst;
    destruct Hst as (H1 & H2 & H3 & H4 & H5 & H6 & H7 & H8 & H9 & H10).
  - unfold optimizer_step, modify, backward, raise.
    cbn [fst snd self set_self grad_enabled].
    destruct (grad_enabled wf) eqn:Hg.
    + cbn [fst snd]. discriminate.
    + intros [= _ <-]. unfold test_snapshot. cbn. rewrite H7.
      repeat split; auto; congruence.
  - unfold raise. intros [= _ <-]. unfold test_snapshot. rewrite H7.
    repeat split; auto.
  - intros [= _ <-]. unfold test_snapshot. rewrite H7. repeat split; auto.
Qed.

(** X13. With a selector that is none of the three tasks, [train_ofe]
    raises [UnboundLocalError] and leaves the world exactly as it was;
    [test_ofe] raises the same after switching both branches to inference
    mode, which is all it has done. *)
Theorem unknown_task_effects w states actions next_states rewards dones :
  aux_task (hyper (self w)) <> "fsp"%string ->
  aux_task (hyper (self w)) <> "fsdp"%string ->
  aux_task (hyper (self w)) <> "rwp"%string ->
  train_ofe states actions next_states rewards dones w = (Raise UnboundLocalError, w) /\
  test_ofe states actions next_states rewards dones w
  = (Raise UnboundLocalError, eval_mode w).
Proof.
  intros H1 H2 H3. apply String.eqb_neq in H1, H2, H3.
  unfold train_ofe, test_ofe, train_loss, test_metrics, no_grad, bind, gets, modify,
    raise, ret, eval_mode.
  cbn. rewrite H1, H2, H3. cbn. split; [reflexivity|].
  destruct w as [n g nd]. reflexivity.
Qed.

(** X14. When [test_ofe] raises, both branches are left in inference mode
    and none of the retained metrics has changed. *)
Theorem test_ofe_raise_leaves_inference_mode
  w states actions next_states rewards dones e w' :
  test_ofe states actions next_states rewards dones w = (Raise e, w') ->
  state_model_training (self w') = false /\
  action_model_training (self w') = false /\
  metrics (self w') = metrics (self w).
Proof.
  rewrite test_ofe_run. cbn zeta.
  pose proof (keeps_test_metrics states actions next_states rewards (test_world w))
    as Hst.
  destruct (test_metrics states actions next_states rewards (test_world w))
    as [res w2]. cbn [fst snd] in *.
  destruct Hst as (_ & _ & _ & _ & H5 & H6 & H7 & _).
  destruct res as [[[[[[[m1 m2] m3] m4] m5] m6]|]|e0]; [discriminate| |];
    intros [= _ <-]; cbn; auto.
Qed.

Lemma predict_ext n n' inputs :
  hyper n = hyper n' -> params n = params n' ->
  state_model_training n = state_model_training n' ->
  action_model_training n = action_model_training n' ->
  predict n inputs = predict n' inputs.
Proof.
  intros Hh Hp Hs Ha. unfold predict, projection. rewrite Hh, Hp, Hs, Ha. reflexivity.
Qed.

Lemma test_ofe_result w s a ns r d :
  fst (test_ofe s a ns r d w) =
  match fst (test_metrics s a ns r (test_world w)) with
  | Ok (Some (m1, m2, m3, m4, m5, m6)) => Ok [m1; m2; m3; m4; m5; m6]
  | Ok None => Raise UnboundLocalError
  | Raise e => Raise e
  end.
Proof.
  rewrite test_ofe_run. cbn zeta.
  destruct (fst (test_metrics s a ns r (test_world w)))
    as [[[[[[[m1 m2] m3] m4] m5] m6]|]|e]; reflexivity.
Qed.

(** X15. With the projection materialised, what [test_ofe] returns is a
    function of the attributes and the parameters: the modes the branches
    were in, the autograd setting, the optimiser state and the metrics
    retained before do not matter. *)
Theorem test_ofe_result_mode_free w w' states actions next_states rewards dones :
  is_Some (out_layer (params (self w))) ->
  hyper (self w') = hyper (self w) ->
  params (self w') = params (self w) ->
  fst (test_ofe states actions next_states rewards dones w')
  = fst (test_ofe states actions next_states rewards dones w).
Proof.
  intros _ Hh Hp. rewrite !test_ofe_result, !test_metrics_value.
  change (hyper (self (test_world w'))) with (hyper (self w')).
  change (hyper (self (test_world w))) with (hyper (self w)).
  rewrite Hh.
  assert (Ht : task_pair (self (test_world w')) states actions next_states rewards
               = task_pair (self (test_world w)) states actions next_states rewards).
  { unfold task_pair.
    rewrite (predict_ext (self (test_world w')) (self (test_world w)));
      [|exact Hh | exact Hp | reflexivity | reflexivity].
    change (hyper (self (test_world w'))) with (hyper (self w')).
    change (hyper (self (test_world w))) with (hyper (self w)).
    rewrite Hh. reflexivity. }
  rewrite Ht. reflexivity.
Qed.

End StepsFurther.

(** ** The error statistics, further *)

Section MetricsFurther.

Local Open Scope Q_scope.

Lemma nsum_nonneg (l : list num) S :
  Forall (fun x => forall y, x = Some y -> 0 <= y) l ->
  nsum l = Some S -> 0 <= S.
Proof.
  intros Hall. revert S. induction Hall as [|x l Hx _ IH]; intros S; unfold nsum in *;
    cbn [foldr].
  - intros [= <-]. cbn. apply Qle_refl.
  - destruct x as [y|]; [|discriminate].
    destruct (foldr nadd (fin 0) l) as [S'|]; [|discriminate].
    intros [= <-]. rewrite Qred_correct.
    pose proof (Hx y eq_refl). pose proof (IH S' eq_refl). lra.
Qed.

Lemma ndiv_nonneg (a b : num) q :
  (forall x, a = Some x -> 0 <= x) -> (forall y, b = Some y -> 0 <= y) ->
  ndiv a b = Some q -> 0 <= q.
Proof.
  intros Ha Hb. unfold ndiv. destruct a as [x|], b as [y|]; try discriminate.
  destruct (Qeq_bool y 0) eqn:E; [discriminate|]. apply Qeq_bool_neq in E.
  intros [= <-]. rewrite Qred_correct.
  pose proof (Ha x eq_refl). pose proof (Hb y eq_refl).
  assert (0 < y) by (apply Qle_lteq in H0 as [H0|H0]; [exact H0|symmetry in H0; contradiction]).
  apply Qle_shift_div_l; [assumption|]. lra.
Qed.

Lemma nmean_nonneg (l : list num) q :
  Forall (fun x => forall y, x = Some y -> 0 <= y) l ->
  nmean l = Some q -> 0 <= q.
Proof.
  intros Hall. unfold nmean. apply ndiv_nonneg.
  - intros x Hx. eapply nsum_nonneg; eauto.
  - intros y [= <-]. rewrite Qred_correct. unfold Qle. cbn. lia.
Qed.

Lemma nabs_nonneg (a : num) y : nabs a = Some y -> 0 <= y.
Proof.
  destruct a as [x|]; [|discriminate]. intros [= <-].
  rewrite Qred_correct. apply Qabs_nonneg.
Qed.

Lemma nsquare_nonneg (a : num) y : nsquare a = Some y -> 0 <= y.
Proof.
  destruct a as [x|]; [|discriminate]. intros [= <-].
  rewrite Qred_correct. nra.
Qed.

Lemma mean_abs_nonneg (x : tensor) q : th.mean (th.abs x) = Some q -> 0 <= q.
Proof.
  apply nmean_nonneg. cbn. apply Forall_map, Forall_forall.
  intros a _ y. apply nabs_nonneg.
Qed.

Lemma mean_square_nonneg (x : tensor) q : th.mean (th.square x) = Some q -> 0 <= q.
Proof.
  apply nmean_nonneg. cbn. apply Forall_map, Forall_forall.
  intros a _ y. apply nsquare_nonneg.
Qed.

(** X17. None of the six statistics is negative: each one that is finite
    is at least zero, whatever the target, the prediction and [eps]. *)
Theorem error_metrics_nonnegative eps target predicted m1 m2 m3 m4 m5 m6 :
  error_metrics eps target predicted = Ok (m1, m2, m3, m4, m5, m6) ->
  Forall (fun m => forall q, m = Some q -> 0 <= q) [m1; m2; m3; m4; m5; m6].
Proof.
  unfold error_metrics, mse_loss.
  destruct (th.sub target predicted) as [d|e]; cbn [rbind]; [|discriminate].
  destruct (th.div d (th.add_scalar target eps)) as [q|e]; cbn [rbind]; [|discriminate].
  intros [= <- <- <- <- <- <-].
  repeat constructor; intros y Hy.
  - eapply mean_abs_nonneg; eauto.
  - eapply nabs_nonneg; eauto.
  - eapply mean_abs_nonneg; eauto.
  - eapply mean_square_nonneg; eauto.
  - eapply ndiv_nonneg; [| |exact Hy]; intros z Hz; eapply mean_square_nonneg; eauto.
  - eapply mean_square_nonneg; eauto.
Qed.

End MetricsFurther.

(** ** What each task reads *)

Section TaskInputs.

Context {B : Backend}.

Lemma test_ofe_from_metrics s a ns r d s' a' ns' r' d' w :
  (forall W, hyper (self W) = hyper (self w) ->
             test_metrics s a ns r W = test_metrics s' a' ns' r' W) ->
  test_ofe s a ns r d w = test_ofe s' a' ns' r' d' w.
Proof.
  intros H. unfold test_ofe. rewrite !bind_modify.
  unfold bind at 1 3. unfold no_grad. rewrite H by reflexivity. reflexivity.
Qed.

(** X18. Reward prediction reads neither [next_states] nor [dones]:
    [test_ofe] and the loss of [train_ofe] are the same for any of them.
    The two state-prediction tasks read neither [rewards] nor [dones]. *)
Theorem tasks_read_their_inputs w states actions next_states rewards dones :
  (aux_task (hyper (self w)) = "rwp"%string ->
   forall next_states' dones',
     test_ofe states actions next_states' rewards dones' w
     = test_ofe states actions next_states rewards dones w /\
     train_loss states actions next_states' rewards w
     = train_loss states actions next_states rewards w) /\
  (aux_task (hyper (self w)) = "fsp"%string \/
   aux_task (hyper (self w)) = "fsdp"%string ->
   forall rewards' dones',
     test_ofe states actions next_states rewards' dones' w
     = test_ofe states actions next_states rewards dones w /\
     train_loss states actions next_states rewards' w
     = train_loss states actions next_states rewards w).
Proof.
  split.
  - intros Ht ns' d'. split.
    + apply test_ofe_from_metrics. intros W HW.
      unfold test_metrics. rewrite !bind_gets, HW, Ht. reflexivity.
    + unfold train_loss. rewrite !bind_gets, Ht. reflexivity.
  - intros Ht r' d'. split.
    + apply test_ofe_from_metrics. intros W HW.
      unfold test_metrics. rewrite !bind_gets, HW.
      destruct Ht as [-> | ->]; reflexivity.
    + unfold train_loss. rewrite !bind_gets.
      destruct Ht as [-> | ->]; reflexivity.
Qed.

End TaskInputs.

(** ** Future-state prediction wider than the observation *)

Section WidthMismatch.

Context {B : Backend}.

Lemma predict_width n inputs p :
  out_layer (params n) = None ->
  predict n inputs = Ok p ->
  exists lead, shape p = lead ++ [Z.to_nat (dim_output (hyper n))].
Proof.
  intros Hnone Hp.
  pose proof (forward_value inputs (MkWorld n true O)) as Hv.
  destruct (forward inputs (MkWorld n true O)) as [r w'] eqn:Hrun.
  cbn [fst self] in Hv. rewrite Hp in Hv. subst r.
  destruct (forward_ok_projection inputs (MkWorld n true O) p w' Hrun)
    as (lin & lead & _ & Hs & _ & Hout).
  destruct (Hout Hnone) as [_ Ho]. exists lead. rewrite Hs, Ho. reflexivity.
Qed.

Lemma broadcast_rev_mismatch (a b : nat) (s t : list nat) :
  a <> b -> a <> 1%nat -> b <> 1%nat -> th.broadcast_rev (a :: s) (b :: t) = None.
Proof.
  intros H1 H2 H3. apply Nat.eqb_neq in H1, H2, H3. cbn [th.broadcast_rev].
  rewrite H1, H2, H3. destruct (th.broadcast_rev s t); reflexivity.
Qed.

Lemma sub_last_dim_mismatch (t p : tensor) b c lead D :
  shape t = [b; c] -> shape p = lead ++ [D] ->
  c <> D -> c <> 1%nat -> D <> 1%nat ->
  th.sub t p = Raise RuntimeError.
Proof.
  intros Ht Hp H1 H2 H3. unfold th.sub, th.binop, th.broadcast_shapes.
  rewrite Ht, Hp, rev_unit. cbn [rev app].
  rewrite broadcast_rev_mismatch by assumption. reflexivity.
Qed.

Lemma slice_cols_shape (x : tensor) b c stop :
  shape x = [b; c] ->
  exists y, th.slice_cols x stop = Ok y /\ shape y = [b; slice_stop stop c].
Proof.
  intros Hx. unfold th.slice_cols. rewrite Hx. eexists. split; reflexivity.
Qed.

(** The pair of the task, for future-state prediction on a network whose
    [dim_output] exceeds the width of the flattened observation: a target
    and a prediction that cannot be subtracted. *)
Lemma fsp_pair_mismatch n s a ns r observation_space b :
  aux_task (hyper n) = "fsp"%string ->
  flatten_dict (hyper n) = map fst observation_space ->
  observation_space <> [] ->
  conforms observation_space ns b ->
  out_layer (params n) = None ->
  (2 <= flat_width observation_space)%nat ->
  Z.of_nat (flat_width observation_space) < dim_output (hyper n) ->
  match predict n (s, a) with
  | Ok _ => exists t p, task_pair n s a ns r = Ok (Some (t, p)) /\
                        th.sub t p = Raise RuntimeError
  | Raise e => task_pair n s a ns r = Raise e
  end.
Proof.
  intros Htask Hkeys Hne Hc Hnone Hw Hd. unfold task_pair. rewrite Htask.
  cbn [String.eqb Ascii.eqb Bool.eqb].
  destruct (predict n (s, a)) as [p|e] eqn:Hp; cbn [rbind]; [|reflexivity].
  destruct (predict_width n (s, a) p Hnone Hp) as (lead & Hps).
  rewrite Hkeys.
  destruct (DictExtractor_forward_shape observation_space ns b Hne Hc) as (x & -> & Hx).
  cbn [rbind].
  destruct (slice_cols_shape x b _ (dim_output (hyper n)) Hx) as (t & -> & Ht).
  cbn [rbind]. exists t, p. split; [reflexivity|].
  assert (Hstop : slice_stop (dim_output (hyper n)) (flat_width observation_space)
                  = flat_width observation_space).
  { unfold slice_stop. destruct (dim_output (hyper n) <? 0) eqn:E; [lia|]. lia. }
  rewrite Hstop in Ht.
  eapply sub_last_dim_mismatch; [exact Ht | exact Hps | lia | lia | lia].
Qed.

(** X19. Future-state prediction with [dim_output] larger than the width
    of the flattened observation, of two columns or more, cannot run on a
    network that has yet to materialise its projection: [train_ofe] and
    [test_ofe] raise what their forward pass raises, and [RuntimeError]
    from the subtraction of prediction and target when it returns. *)
Theorem fsp_wider_than_observation_fails
  w states actions next_states rewards dones observation_space b :
  aux_task (hyper (self w)) = "fsp"%string ->
  flatten_dict (hyper (self w)) = map fst observation_space ->
  observation_space <> [] ->
  conforms observation_space next_states b ->
  out_layer (params (self w)) = None ->
  (2 <= flat_width observation_space)%nat ->
  Z.of_nat (flat_width observation_space) < dim_output (hyper (self w)) ->
  fst (train_ofe states actions next_states rewards dones w)
  = match predict (self w) (states, actions) with
    | Ok _ => Raise RuntimeError
    | Raise e => Raise e
    end /\
  fst (test_ofe states actions next_states rewards dones w)
  = match test_prediction w states actions with
    | Ok _ => Raise RuntimeError
    | Raise e => Raise e
    end.
Proof.
  intros Htask Hkeys Hne Hc Hnone Hw Hd. split.
  - pose proof (fsp_pair_mismatch (self w) states actions next_states rewards
                  observation_space b Htask Hkeys Hne Hc Hnone Hw Hd) as Hpair.
    pose proof (train_loss_value states actions next_states rewards w) as Hv.
    unfold train_ofe, bind.
    destruct (train_loss states actions next_states rewards w) as [res wf].
    cbn [fst] in Hv. subst res.
    destruct (predict (self w) (states, actions)) as [p|e].
    + destruct Hpair as (t & p' & -> & Hsub). cbn [rbind].
      unfold mse_loss. rewrite Hsub. reflexivity.
    + rewrite Hpair. reflexivity.
  - pose proof (fsp_pair_mismatch (self (test_world w)) states actions next_states
                  rewards observation_space b Htask Hkeys Hne Hc Hnone Hw Hd) as Hpair.
    rewrite test_ofe_result, test_metrics_value, test_prediction_value.
    destruct (predict (self (test_world w)) (states, actions)) as [p|e].
    + destruct Hpair as (t & p' & -> & Hsub). cbn [rbind].
      unfold error_metrics, mse_loss. rewrite Hsub. reflexivity.
    + rewrite Hpair. reflexivity.
Qed.

End WidthMismatch.

(** ** The constructor *)

Section ConstructorFurther.

Context {B : Backend}.

(** X20. When the constructor returns a network, the layer count is not
    zero and divides the budget. The network has both branches in training
    mode, no projection yet, the same number of blocks in both branches,
    each built for [total_units // num_layers] units, the task and the
    skip flag it was given, and width attributes that differ by
    [dim_action + total_units]. *)
Theorem OFENet_init_result
  dim_state dim_action dim_output total_units num_layers task observation_space skip n :
  OFENet_init dim_state dim_action dim_output total_units num_layers task
              observation_space skip = Ok n ->
  num_layers <> 0 /\
  total_units `mod` num_layers = 0 /\
  state_model_training n = true /\
  action_model_training n = true /\
  out_layer (params n) = None /\
  state_blocks (params n)
  = replicate (Z.to_nat num_layers) (block_class (total_units `div` num_layers)) /\
  action_blocks (params n) = state_blocks (params n) /\
  dim_state_features n = total_units + dim_state /\
  dim_state_action_features n = dim_state_features n + dim_action + total_units /\
  aux_task (hyper n) = task /\
  _skip_action_branch (hyper n) = skip.
Proof.
  unfold OFENet_init, calculate_layer_units.
  destruct (decide (num_layers = 0)) as [Hz|Hz]; [discriminate|].
  destruct (decide (total_units `mod` num_layers = 0)) as [Hm|Hm]; [|discriminate].
  cbn [rbind fst snd]. intros [= <-]. cbn. rewrite fmap_replicate.
  unfold dim_state_action_features, dim_state_features. cbn.
  repeat split; auto; lia.
Qed.

End ConstructorFurther.

Section ForwardFrame.

Context {B : Backend}.

(** X21. On every exit, a forward pass leaves the attributes, the
    optimiser state, the branch modes, the metrics and the autograd
    setting as they were, and adds graph nodes only while autograd
    records. With both branches in inference mode, autograd off and the
    projection in place, it leaves the whole world as it was. *)
Theorem forward_frame inputs w :
  let w' := snd (forward inputs w) in
  hyper (self w') = hyper (self w) /\
  optimizer (self w') = optimizer (self w) /\
  state_model_training (self w') = state_model_training (self w) /\
  action_model_training (self w') = action_model_training (self w) /\
  metrics (self w') = metrics (self w) /\
  grad_enabled w' = grad_enabled w /\
  (grad_enabled w = false -> autograd_nodes w' = autograd_nodes w) /\
  (state_model_training (self w) = false ->
   action_model_training (self w) = false ->
   grad_enabled w = false ->
   is_Some (out_layer (params (self w))) ->
   w' = w).
Proof.
  cbn zeta. pose proof (keeps_forward inputs w) as Hst.
  pose proof Hst as (H1 & H2 & H3 & H4 & H5 & H6 & H7 & H8 & H9 & H10).
  do 7 (split; [assumption|]).
  intros _ _ Hg [l Hl]. exact (steady_same _ _ l Hst Hg Hl).
Qed.

End ForwardFrame.

(** ** The properties on the reference backend *)

Import Reference Sample.

(** The reference block keeps the contract of a growth block. *)
Lemma reference_contract : GrowthContract Reference.backend.
Proof.
  split.
  - reflexivity.
  - intros b x r c Hx _. cbn. unfold dense_forward. rewrite Hx.
    eexists. split; reflexivity.
Qed.

Lemma indivisible_budget_fails_witness :
  calculate_layer_units 1 1 7 2 = Raise AssertionError /\
  OFENet_init 1 1 1 7 2 "fsp" space1 false = Raise AssertionError.
Proof.
  destruct (proj1 indivisible_budget_fails 1 1 1 7 2 "fsp"%string space1 false)
    as (e & H1 & H2 & H3).
  - intros [_ H]. vm_compute in H. discriminate.
  - rewrite H1, H2, H3 by lia. split; reflexivity.
Defined.

Lemma unknown_task_accepted_then_fails_witness :
  exists n,
    OFENet_init 1 1 1 1 1 "reward" space1 false = Ok n /\
    fst (train_ofe (obs (column 1 2)) (column 0 0) (obs (column 2 3)) (column 1 3)
                   (column 0 0) (fresh n)) = Raise UnboundLocalError /\
    fst (test_ofe (obs (column 1 2)) (column 0 0) (obs (column 2 3)) (column 1 3)
                  (column 0 0) (fresh n)) = Raise UnboundLocalError.
Proof.
  destruct (unknown_task_accepted_then_fails 1 1 1 1 1 "reward" space1 false)
    as (n & Hn & H); [discriminate | discriminate | discriminate | lia | reflexivity |].
  exists n. split; [exact Hn|]. apply H. reflexivity.
Defined.

Lemma feature_widths_witness :
  exists f w1 g w2 wf wg,
    features_from_states (obs (batch2 1 2 3 4)) (fresh fsp_net) = (Ok f, w1) /\
    shape f = [2%nat; wf] /\
    Z.of_nat wf = dim_state_features fsp_net /\
    Z.of_nat wf = Z.of_nat (flat_width space2) + 2 /\
    features_from_states_actions (obs (batch2 1 2 3 4)) (column 5 6) (fresh fsp_net)
    = (Ok g, w2) /\
    shape g = [2%nat; wg] /\
    Z.of_nat wg = Z.of_nat wf + 1 + 2 /\
    Z.of_nat wg = dim_state_action_features fsp_net.
Proof.
  apply (feature_widths (G := reference_contract) 2 1 2 2 2 "fsp" space2 false fsp_net
           (fresh fsp_net) (obs (batch2 1 2 3 4)) (column 5 6) 2 1).
  - reflexivity.
  - lia.
  - lia.
  - discriminate.
  - vm_compute. repeat constructor; set_solver.
  - reflexivity.
  - repeat split; reflexivity.
  - repeat constructor; [discriminate|]. eexists. split; reflexivity.
  - reflexivity.
  - reflexivity.
Defined.

Lemma test_ofe_frame_witness :
  let w := fresh probe_net in
  let out := test_ofe (obs (column 1 3)) (column 0 0) (obs (column 0 0)) (column 0 0)
                      (column 0 0) w in
  exists ms,
    fst out = Ok ms /\
    params (self (snd out)) = params (self w) /\
    optimizer (self (snd out)) = optimizer (self w) /\
    autograd_nodes (snd out) = autograd_nodes w /\
    snd out = set_self (set_metrics
                          (set_test_metrics (nth 0 ms None) (nth 1 ms None)
                             (nth 2 ms None) (nth 3 ms None) (nth 4 ms None)
                             (nth 5 ms None) (metrics (self w))) (self w)) w.
Proof.
  intros w out.
  destruct (test_ofe_frame w (obs (column 1 3)) (column 0 0) (obs (column 0 0))
              (column 0 0) (column 0 0))
    as (_ & _ & _ & H4 & H5 & _ & _ & _ & _ & _ & _ & _ & H13).
  fold out in H4, H5, H13.
  destruct (fst out) as [ms|e] eqn:E; [|vm_compute in E; discriminate].
  destruct (H13 ms eq_refl) as (_ & _ & _ & _ & Hw).
  specialize (Hw eq_refl eq_refl (ex_intro _ second_feature eq_refl)).
  exists ms. split; [reflexivity|]. split; [rewrite Hw; reflexivity|].
  split; [exact H4|]. split; [exact H5|]. exact Hw.
Defined.

(** C3 does not hold as stated. On the reward network before its first
    forward pass, [test_ofe] returns and the parameters are no longer what
    they were: the call has materialised the output projection. On the
    network with its projection in place and both branches in inference
    mode, [test_ofe] returns with the branches in training mode, so more
    than the metrics snapshot has changed. *)
Lemma test_ofe_changes_more_than_snapshot :
  (let w := fresh rwp_net in
   let out := test_ofe (obs (column 1 2)) (column 0 0) (obs (column 2 3)) (column 1 3)
                       (column 0 0) w in
   (exists ms, fst out = Ok ms) /\
   out_layer (params (self w)) = None /\
   params (self (snd out)) <> params (self w)) /\
  (let w := eval_mode (fresh probe_net) in
   let out := test_ofe (obs (column 1 3)) (column 0 0) (obs (column 0 0)) (column 0 0)
                       (column 0 0) w in
   (exists ms, fst out = Ok ms) /\
   params (self (snd out)) = params (self w) /\
   state_model_training (self w) = false /\
   action_model_training (self w) = false /\
   state_model_training (self (snd out)) = true /\
   action_model_training (self (snd out)) = true /\
   snd out <> set_self (set_metrics (metrics (self (snd out))) (self w)) w).
Proof.
  split; cbn zeta.
  - split; [eexists; vm_compute; reflexivity|]. split; [reflexivity|].
    intros H. vm_compute in H. discriminate.
  - split; [eexists; vm_compute; reflexivity|].
    do 5 (split; [vm_compute; reflexivity|]).
    intros H. vm_compute in H. discriminate.
Qed.

(** With autograd on, the forward pass of [train_ofe] records one node per
    block and one for the projection; [test_ofe] on the same batch records
    none. *)
Lemma train_ofe_records_graph :
  let w := fresh rwp_net in
  autograd_nodes (snd (train_ofe (obs (column 1 2)) (column 0 0) (obs (column 2 3))
                                 (column 1 3) (column 0 0) w)) = 3%nat /\
  autograd_nodes (snd (test_ofe (obs (column 1 2)) (column 0 0) (obs (column 2 3))
                                (column 1 3) (column 0 0) w)) = 0%nat.
Proof. vm_compute. auto. Qed.

(** C5 does not hold as stated. A network in training mode is asked for
    the features of an observation that lacks its field: the call switches
    the action branch to inference mode, the extractor raises [KeyError],
    and the branch stays in inference mode. The same happens when the
    actions have another batch size than the observation and [th.cat]
    raises. And a network that is in inference mode before the call is in
    training mode after it. *)
Lemma features_raise_leaves_inference_mode :
  let w := fresh rwp_net in
  let missing := features_from_states_actions ∅ (column 0 0) w in
  let mismatch := features_from_states_actions (obs (column 1 2))
                    (Tensor [3; 1]%nat [fin 0; fin 0; fin 0]) w in
  let returned := features_from_states (obs (column 1 2)) (eval_mode w) in
  action_model_training (self w) = true /\
  fst missing = Raise KeyError /\
  action_model_training (self (snd missing)) = false /\
  fst mismatch = Raise RuntimeError /\
  action_model_training (self (snd mismatch)) = false /\
  state_model_training (self (eval_mode w)) = false /\
  (exists f, fst returned = Ok f) /\
  state_model_training (self (snd returned)) = true.
Proof.
  cbn zeta. repeat (split; [vm_compute; reflexivity|]).
  split; [eexists; vm_compute; reflexivity|]. vm_compute. reflexivity.
Qed.

Lemma features_leave_training_mode_witness :
  exists f w1 g w2,
    features_from_states (obs (batch2 1 2 3 4)) (fresh fsp_net) = (Ok f, w1) /\
    state_model_training (self w1) = true /\
    action_model_training (self w1) = true /\
    features_from_states_actions (obs (batch2 1 2 3 4)) (column 5 6) (fresh fsp_net)
    = (Ok g, w2) /\
    state_model_training (self w2) = true /\
    action_model_training (self w2) = true.
Proof.
  destruct (features_leave_training_mode (fresh fsp_net) (obs (batch2 1 2 3 4))
              (column 5 6)) as (H1 & H2 & _ & _).
  destruct (features_from_states (obs (batch2 1 2 3 4)) (fresh fsp_net))
    as [[f|e] w1] eqn:E1; [|vm_compute in E1; discriminate].
  destruct (features_from_states_actions (obs (batch2 1 2 3 4)) (column 5 6)
              (fresh fsp_net)) as [[g|e] w2] eqn:E2; [|vm_compute in E2; discriminate].
  destruct (H1 f w1 eq_refl) as (A1 & A2 & _).
  destruct (H2 g w2 eq_refl) as (A3 & A4 & _).
  exists f, w1, g, w2. rewrite A1, A2, A3, A4. repeat split; reflexivity.
Defined.



Lemma zero_target_ratios_not_finite_witness :
  dim_output (hyper blind_net) = 2 /\
  fst (test_ofe (obs (batch2 1 2 3 4)) (column 1 1) (obs (batch2 0 0 0 0)) (column 0 0)
                (column 0 0) (fresh blind_net))
  = Ok [Some 0%Q; None; Some 0%Q; Some 0%Q; None; Some 0%Q].
Proof.
  split; [reflexivity|].
  apply (zero_target_ratios_not_finite (fresh blind_net) (obs (batch2 1 2 3 4))
           (column 1 1) (obs (batch2 0 0 0 0)) (column 0 0) (column 0 0) [2; 2]%nat).
  - reflexivity.
  - reflexivity.
  - discriminate.
  - vm_compute. reflexivity.
  - vm_compute. reflexivity.
Defined.

Lemma reward_example_metrics_witness :
  exists ms,
    fst (test_ofe (obs (column 1 2)) (column 0 0) (obs (column 0 0))
                  (Tensor [2; 1]%nat [Some 1%Q; Some 3%Q]) (column 0 0) (fresh rwp_net))
    = Ok ms /\
    length ms = 6%nat /\
    ms !! 0%nat = Some (Some (1 # 2)%Q) /\
    ms !! 3%nat = Some (Some (1 # 2)%Q).
Proof.
  apply (reward_example_metrics (fresh rwp_net) (obs (column 1 2)) (column 0 0)
           (obs (column 0 0)) (column 0 0) [2; 1]%nat).
  - reflexivity.
  - reflexivity.
  - vm_compute. reflexivity.
Defined.

Lemma skip_flag_read_by_forward_only_witness :
  forward (obs (column 1 2), column 7 9) (fresh skip_net)
  = forward (obs (column 1 2), column 0 0) (fresh skip_net) /\
  fst (features_from_states_actions (obs (column 1 2)) (column 7 9) (fresh skip_net))
  = fst (features_from_states_actions (obs (column 1 2)) (column 7 9) (fresh rwp_net)).
Proof.
  destruct (skip_flag_read_by_forward_only (fresh rwp_net) (obs (column 1 2))
              (column 7 9)) as [_ H2].
  destruct (skip_flag_read_by_forward_only (fresh skip_net) (obs (column 1 2))
              (column 0 0)) as [H1 _].
  split.
  - apply H1. reflexivity.
  - etransitivity; [exact (H2 true) | symmetry; exact (H2 false)].
Defined.

(** ** The further properties on the reference backend *)

Lemma calculate_layer_units_symmetric_witness :
  length [4; 4; 4] = Z.to_nat 3 /\
  forall state_dim action_dim,
    calculate_layer_units state_dim action_dim 12 3 = Ok ([4; 4; 4], [4; 4; 4]).
Proof.
  destruct (calculate_layer_units_symmetric 7 2 12 3 [4; 4; 4] [4; 4; 4] eq_refl)
    as (_ & H2 & _ & _ & H5).
  split; assumption.
Defined.

Lemma negative_layer_count_builds_no_blocks_witness :
  exists n,
    OFENet_init 2 1 2 4 (-2) "fsp" space2 false = Ok n /\
    state_blocks (params n) = [] /\
    dim_state_features n = 6 /\
    fst (features_from_states (obs (batch2 1 2 3 4)) (fresh n)) = Ok (batch2 1 2 3 4).
Proof.
  destruct (negative_layer_count_builds_no_blocks 2 1 2 4 (-2) "fsp" space2 false)
    as (n & Hn & Hs & _ & Hd & Hf); [lia | reflexivity |].
  exists n. split; [exact Hn|]. split; [exact Hs|]. split; [exact Hd|].
  destruct (Hf (fresh n) (obs (batch2 1 2 3 4)) (column 0 0) eq_refl) as [H1 _].
  rewrite H1. vm_compute. reflexivity.
Defined.

Lemma DictExtractor_forward_needs_every_key_witness :
  Forall (fun key => exists t, obs12 !! key = Some t /\ (2 <= length (shape t))%nat)
         ["a"%string; "b"%string].
Proof.
  destruct (DictExtractor_forward_needs_every_key ["a"%string; "b"%string] obs12
              (Tensor [2; 3]%nat [fin 1; fin 3; fin 4; fin 2; fin 5; fin 6]))
    as (_ & H & _); [vm_compute; reflexivity | exact H].
Defined.

Lemma DictExtractor_forward_missing_key_witness :
  DictExtractor_forward ["a"%string; "goal"%string; "b"%string] obs12 = Raise KeyError.
Proof.
  apply (DictExtractor_forward_missing_key ["a"%string] "goal" ["b"%string] obs12).
  - repeat constructor. eexists. split; [reflexivity|]. cbn. lia.
  - reflexivity.
Defined.

Lemma DictExtractor_forward_reads_schema_only_witness :
  DictExtractor_forward ["obs"%string] (<[ "extra"%string := column 7 8 ]> (obs (column 1 2)))
  = DictExtractor_forward ["obs"%string] (obs (column 1 2)).
Proof.
  apply DictExtractor_forward_reads_schema_only.
  intros key Hk. apply list_elem_of_singleton in Hk. subst key. reflexivity.
Defined.

Lemma DictExtractor_forward_well_formed_witness :
  exists x, DictExtractor_forward ["a"%string; "b"%string] obs12 = Ok x /\
            shape x = [2%nat; 3%nat] /\ well_formed x.
Proof.
  apply (DictExtractor_forward_well_formed space12 obs12 2).
  - discriminate.
  - repeat constructor; try discriminate;
      eexists; (split; [reflexivity|]); split; reflexivity.
Defined.

Lemma DictExtractor_forward_single_field_witness :
  DictExtractor_forward ["obs"%string] (obs cube)
  = Ok (Tensor [2; 2]%nat (data cube)).
Proof.
  apply (DictExtractor_forward_single_field "obs" (obs cube) cube 2 1 [2%nat]);
    reflexivity.
Defined.

Lemma features_from_states_repeatable_witness :
  exists f w1,
    features_from_states (obs (batch2 1 2 3 4)) (fresh fsp_net) = (Ok f, w1) /\
    fst (features_from_states (obs (batch2 1 2 3 4)) w1) = Ok f /\
    fst (features_from_states (obs (batch2 1 2 3 4)) (eval_mode (fresh fsp_net))) = Ok f.
Proof.
  destruct (features_from_states_repeatable (fresh fsp_net) (obs (batch2 1 2 3 4)))
    as [H1 H2].
  destruct (features_from_states (obs (batch2 1 2 3 4)) (fresh fsp_net))
    as [[f|e] w1] eqn:E; [|vm_compute in E; discriminate].
  exists f, w1. split; [reflexivity|]. split; [apply H2; reflexivity|].
  rewrite (H1 (eval_mode (fresh fsp_net)) eq_refl eq_refl). reflexivity.
Defined.

Lemma forward_result_width_witness :
  exists v w' lin,
    forward (obs (column 1 2), column 0 0) (fresh rwp_net) = (Ok v, w') /\
    out_layer (params (self w')) = Some lin /\
    th.out_features lin = 1%nat /\
    exists lead, shape v = lead ++ [1%nat].
Proof.
  destruct (forward_result_width (obs (column 1 2), column 0 0) (fresh rwp_net))
    as [H _].
  destruct (forward (obs (column 1 2), column 0 0) (fresh rwp_net))
    as [[v|e] w'] eqn:E; [|vm_compute in E; discriminate].
  destruct (H v w' eq_refl) as (lin & lead & H1 & H2 & _ & H4).
  destruct (H4 eq_refl) as [_ Ho].
  exists v, w', lin. split; [reflexivity|]. split; [exact H1|]. split; [exact Ho|].
  exists lead. rewrite H2, Ho. reflexivity.
Defined.

Lemma forward_frame_witness :
  snd (forward (obs (column 1 3), column 0 0) (test_world (fresh probe_net)))
  = test_world (fresh probe_net).
Proof.
  destruct (forward_frame (obs (column 1 3), column 0 0) (test_world (fresh probe_net)))
    as (_ & _ & _ & _ & _ & _ & _ & H).
  apply H; [reflexivity | reflexivity | reflexivity |]. eexists. reflexivity.
Defined.

Lemma train_ofe_steps_once_witness :
  exists w' loss,
    train_ofe (obs (column 1 2)) (column 0 0) (obs (column 2 3)) (column 1 3)
              (column 0 0) (fresh rwp_net) = (Ok tt, w') /\
    mse_train (metrics (self w')) = loss /\
    optimizer (self w') = 1%nat /\
    state_model_training (self w') = true /\
    test_snapshot (self w') = test_snapshot rwp_net.
Proof.
  destruct (train_ofe (obs (column 1 2)) (column 0 0) (obs (column 2 3)) (column 1 3)
              (column 0 0) (fresh rwp_net)) as [[[]|e] w'] eqn:E;
    [|vm_compute in E; discriminate].
  destruct (train_ofe_steps_once _ _ _ _ _ _ _ E)
    as (loss & wf & _ & _ & H3 & H4 & _ & H6 & _ & H8 & _).
  exists w', loss. split; [reflexivity|]. split; [exact H3|].
  split; [|split; [exact H6 | exact H8]].
  apply (f_equal fst) in H4. cbn [fst] in H4. rewrite H4. reflexivity.
Defined.

Lemma train_ofe_raise_steps_not_witness :
  let out := train_ofe ∅ (column 0 0) (obs (column 2 3)) (column 1 3) (column 0 0)
                       (fresh rwp_net) in
  fst out = Raise KeyError /\
  optimizer (self (snd out)) = optimizer rwp_net /\
  hyper (self (snd out)) = hyper rwp_net.
Proof.
  cbn zeta.
  destruct (train_ofe ∅ (column 0 0) (obs (column 2 3)) (column 1 3) (column 0 0)
                      (fresh rwp_net)) as [[[]|e] w'] eqn:E;
    [vm_compute in E; discriminate|].
  cbn [fst snd].
  destruct (train_ofe_raise_steps_not _ _ _ _ _ _ _ _ E) as (H1 & _ & H2 & _).
  split; [|split; [exact H1 | exact H2]].
  apply (f_equal fst) in E. vm_compute in E. symmetry. exact E.
Defined.

Lemma unknown_task_effects_witness :
  train_ofe (obs (column 1 2)) (column 0 0) (obs (column 2 3)) (column 1 3) (column 0 0)
            (fresh odd_net) = (Raise UnboundLocalError, fresh odd_net) /\
  test_ofe (obs (column 1 2)) (column 0 0) (obs (column 2 3)) (column 1 3) (column 0 0)
           (fresh odd_net) = (Raise UnboundLocalError, eval_mode (fresh odd_net)).
Proof.
  apply unknown_task_effects; discriminate.
Defined.

Lemma test_ofe_raise_leaves_inference_mode_witness :
  let out := test_ofe ∅ (column 0 0) (obs (column 2 3)) (column 1 3) (column 0 0)
                      (fresh rwp_net) in
  fst out = Raise KeyError /\
  state_model_training (self (snd out)) = false /\
  action_model_training (self (snd out)) = false /\
  metrics (self (snd out)) = metrics rwp_net.
Proof.
  cbn zeta.
  destruct (test_ofe ∅ (column 0 0) (obs (column 2 3)) (column 1 3) (column 0 0)
                     (fresh rwp_net)) as [[ms|e] w'] eqn:E;
    [vm_compute in E; discriminate|].
  cbn [fst snd].
  destruct (test_ofe_raise_leaves_inference_mode _ _ _ _ _ _ _ _ E) as (H1 & H2 & H3).
  split; [|auto].
  apply (f_equal fst) in E. vm_compute in E. symmetry. exact E.
Defined.

Lemma test_ofe_result_mode_free_witness :
  fst (test_ofe (obs (column 1 3)) (column 0 0) (obs (column 0 0)) (column 0 0)
                (column 0 0) (test_world (fresh probe_net)))
  = fst (test_ofe (obs (column 1 3)) (column 0 0) (obs (column 0 0)) (column 0 0)
                  (column 0 0) (fresh probe_net)).
Proof.
  apply test_ofe_result_mode_free; [eexists|..]; reflexivity.
Defined.

Lemma mean_ratios_ignore_eps_witness :
  match error_metrics (1 # 10000000000) (column 1 3) (column 1 2),
        error_metrics 1 (column 1 3) (column 1 2) with
  | Ok (m1, m2, _, m4, m5, _), Ok (m1', m2', _, m4', m5', _) =>
      m1 = m1' /\ m2 = m2' /\ m4 = m4' /\ m5 = m5'
  | _, _ => False
  end.
Proof.
  destruct (error_metrics (1 # 10000000000) (column 1 3) (column 1 2))
    as [[[[[[m1 m2] m3] m4] m5] m6]|e] eqn:E1; [|vm_compute in E1; discriminate].
  destruct (error_metrics 1 (column 1 3) (column 1 2))
    as [[[[[[m1' m2'] m3'] m4'] m5'] m6']|e] eqn:E2; [|vm_compute in E2; discriminate].
  exact (mean_ratios_ignore_eps _ _ _ _ _ _ _ _ _ _ _ _ _ _ _ _ E1 E2).
Defined.

Lemma error_metrics_nonnegative_witness :
  match error_metrics (1 # 10000000000) (column 1 3) (column 1 2) with
  | Ok (m1, m2, m3, m4, m5, m6) =>
      Forall (fun m => forall q, m = Some q -> (0 <= q)%Q) [m1; m2; m3; m4; m5; m6]
  | Raise _ => False
  end.
Proof.
  destruct (error_metrics (1 # 10000000000) (column 1 3) (column 1 2))
    as [[[[[[m1 m2] m3] m4] m5] m6]|e] eqn:E; [|vm_compute in E; discriminate].
  exact (error_metrics_nonnegative _ _ _ _ _ _ _ _ _ E).
Defined.

Lemma tasks_read_their_inputs_witness :
  test_ofe (obs (column 1 2)) (column 0 0) ∅ (column 1 3) (column 5 5) (fresh rwp_net)
  = test_ofe (obs (column 1 2)) (column 0 0) (obs (column 2 3)) (column 1 3) (column 0 0)
             (fresh rwp_net) /\
  test_ofe (obs (batch2 1 2 3 4)) (column 0 0) (obs (batch2 1 2 3 4)) (column 9 9)
           (column 5 5) (fresh fsp_net)
  = test_ofe (obs (batch2 1 2 3 4)) (column 0 0) (obs (batch2 1 2 3 4)) (column 0 0)
             (column 0 0) (fresh fsp_net).
Proof.
  split.
  - apply (proj1 (tasks_read_their_inputs (fresh rwp_net) (obs (column 1 2)) (column 0 0)
                    (obs (column 2 3)) (column 1 3) (column 0 0)) eq_refl).
  - apply (proj2 (tasks_read_their_inputs (fresh fsp_net) (obs (batch2 1 2 3 4))
                    (column 0 0) (obs (batch2 1 2 3 4)) (column 0 0) (column 0 0))
                 (or_introl eq_refl)).
Defined.

Lemma fsp_wider_than_observation_fails_witness :
  fst (train_ofe (obs (batch2 1 2 3 4)) (column 0 0) (obs (batch2 1 2 3 4)) (column 0 0)
                 (column 0 0) (fresh wide_net)) = Raise RuntimeError /\
  fst (test_ofe (obs (batch2 1 2 3 4)) (column 0 0) (obs (batch2 1 2 3 4)) (column 0 0)
                (column 0 0) (fresh wide_net)) = Raise RuntimeError.
Proof.
  destruct (fsp_wider_than_observation_fails (fresh wide_net) (obs (batch2 1 2 3 4))
              (column 0 0) (obs (batch2 1 2 3 4)) (column 0 0) (column 0 0) space2 2)
    as [H1 H2].
  - reflexivity.
  - reflexivity.
  - discriminate.
  - repeat constructor; [discriminate|]. eexists. split; reflexivity.
  - reflexivity.
  - vm_compute. lia.
  - vm_compute. reflexivity.
  - rewrite H1, H2. vm_compute. split; reflexivity.
Defined.

Lemma OFENet_init_result_witness :
  out_layer (params fsp_net) = None /\
  action_blocks (params fsp_net) = state_blocks (params fsp_net) /\
  dim_state_features fsp_net = 4 /\
  dim_state_action_features fsp_net = 7.
Proof.
  destruct (OFENet_init_result 2 1 2 2 2 "fsp" space2 false fsp_net eq_refl)
    as (_ & _ & _ & _ & H3 & _ & H5 & H6 & H7 & _).
  split; [exact H3|]. split; [exact H5|]. split; [exact H6|].
  rewrite H7, H6. reflexivity.
Defined.
